(** * ClawTeam agent runtime: job orchestration and the tool invocation gate

    A shallow embedding of

    - [internal/tools/base.py]    ([Tool], [ToolRegistry]),
    - [internal/tools/engine.py]  ([ToolEngine]),
    - [internal/agent/runtime.py] ([AgentRuntime]),
    - [internal/tools/memory_tools.py] and the definition of
      [internal/tools/search_tools.py], [internal/llm/factory.py] and the
      request building of [internal/llm/anthropic.py],
    - the data classes of [internal/model/{tool,execution,llm,agent}.py]
      these three modules read or build,

    followed by the properties of the gate, of the job ledger and of the
    follow-up extraction that are checked against the embedding.

    Conventions of the embedding.

    - A Python [str] is a [string]; a character is a code point below 256.
    - A [datetime] is a count of microseconds on the UTC time line, a
      [timedelta] a difference of two of them.  [datetime.utcnow()] reads the
      clock of the outside world, which is part of the state.
    - A [dict] is a [gmap]; [Any] is the type [Value] of the values JSON
      can hold.
    - A Python object that is shared and mutated (an [AgentJob]) lives in a
      store and is passed around by address.
    - A call that the source guards with [try]/[except Exception] returns an
      [Outcome]: the value, or the exception raised.  A method the source
      calls unguarded is taken at its declared type.
    - [async] code runs on one event loop: a stretch of code between two
      suspension points is atomic, and what the other tasks do while a
      coroutine is suspended is a function on the state supplied by the
      scheduler.  Neither lock of the source is held across a suspension
      point, so acquiring one never suspends.
    - Of a data class the embedding keeps the fields these modules read or
      write, and some of the others for their defaults.
    - The field types of the data classes are taken as they are declared;
      the names [ToolDefinition], [ToolStatus], [JobStatus] and [ActionItem]
      denote the classes of [model/tool.py] and [model/execution.py]. *)

From Stdlib Require Import ZArith QArith Strings.String Strings.Ascii.
From stdpp Require Import gmap strings list fin_maps functions.

Open Scope string_scope.
Open Scope list_scope.
Open Scope nat_scope.

(** ** Python values and strings *)

Definition datetime := Z.

(** [timedelta(seconds=n)], in microseconds. *)
Definition timedelta (seconds : Z) : Z := (seconds * 1000000)%Z.

#[warnings="-register-all"] Inductive Value :=
  | VNone
  | VBool (b : bool)
  | VInt (z : Z)
  | VStr (s : string)
  | VList (items : list Value)
  | VDict (entries : list (string * Value)).

(** Truth value of an object, as tested by [if x] and [not x]. *)
Definition truthy (v : Value) : bool :=
  match v with
  | VNone => false
  | VBool b => b
  | VInt z => negb (z =? 0)%Z
  | VStr s => negb (String.eqb s "")
  | VList items => negb (Nat.eqb (length items) 0)
  | VDict entries => negb (Nat.eqb (length entries) 0)
  end.

(** [d.get(key)] and [d.get(key, dflt)] on a [dict[str, Any]]. *)
Definition dict_get (d : gmap string Value) (key : string) : Value :=
  default VNone (d !! key).

Definition dict_get_default (d : gmap string Value) (key : string) (dflt : Value) : Value :=
  default dflt (d !! key).

(** What a call guarded by [except Exception as e] can do: raise an
    exception, kept as [str(e)], or return. *)
Inductive Outcome (A : Type) :=
  | Raise (message : string)
  | Return (a : A).
Arguments Raise {A} message.
Arguments Return {A} a.

Module Str.

Definition newline : ascii := "010"%char.

(** [str.isspace] on one character (code points below 256). *)
Definition isspace (c : ascii) : bool :=
  let n := nat_of_ascii c in
  (((9 <=? n) && (n <=? 13)) || ((28 <=? n) && (n <=? 32))
   || (n =? 133) || (n =? 160))%nat.

Fixpoint lstrip (s : string) : string :=
  match s with
  | EmptyString => EmptyString
  | String c s' => if isspace c then lstrip s' else s
  end.

Fixpoint rstrip (s : string) : string :=
  match s with
  | EmptyString => EmptyString
  | String c s' =>
      match rstrip s' with
      | EmptyString => if isspace c then EmptyString else String c EmptyString
      | r => String c r
      end
  end.

(** [s.strip()] *)
Definition strip (s : string) : string := rstrip (lstrip s).

(** [s.startswith(p)] *)
Definition startswith (s p : string) : bool := String.prefix p s.

(** [s.split(sep)] for a separator of one character: the pieces between
    the occurrences of [sep], one more than there are occurrences. *)
Fixpoint split (sep : ascii) (s : string) : list string :=
  match s with
  | EmptyString => [EmptyString]
  | String c s' =>
      if Ascii.eqb c sep then EmptyString :: split sep s'
      else match split sep s' with
           | piece :: rest => String c piece :: rest
           | [] => [String c EmptyString]
           end
  end.

(** [s.split(sep, 1)]: cut at the first occurrence of [sep] only. *)
Fixpoint split1 (sep : ascii) (s : string) : list string :=
  match s with
  | EmptyString => [EmptyString]
  | String c s' =>
      if Ascii.eqb c sep then [EmptyString; s']
      else match split1 sep s' with
           | piece :: rest => String c piece :: rest
           | [] => [String c EmptyString]
           end
  end.

(** [l[-1]] of a list of strings that is never empty here. *)
Definition last_piece (l : list string) : string := List.last l EmptyString.

(** [sep.join(parts)] *)
Fixpoint join (sep : string) (parts : list string) : string :=
  match parts with
  | [] => EmptyString
  | [p] => p
  | p :: rest => p +:+ sep +:+ join sep rest
  end.

(** [c in s] for a character. *)
Fixpoint mem (c : ascii) (s : string) : bool :=
  match s with
  | EmptyString => false
  | String d s' => Ascii.eqb d c || mem c s'
  end.

(** [a in b] for strings, as a proposition. *)
Definition contains (b a : string) : Prop :=
  exists pre suf, b = pre +:+ a +:+ suf.

End Str.

(** ** [model/execution.py] and [model/agent.py], [model/llm.py] *)

Module ActionItem.
Record t := {
  description : string;
  assignee : option string;
  priority : string;
  due_date : option datetime;
  metadata : gmap string Value
}.

(** [ActionItem(description=desc)]: the other fields take their defaults. *)
Definition make (desc : string) : t :=
  {| description := desc; assignee := None; priority := "medium";
     due_date := None; metadata := ∅ |}.
End ActionItem.

Module JobStatus.
Inductive t := PENDING | RUNNING | COMPLETED | FAILED | CANCELLED.

Definition eqb (a b : t) : bool :=
  match a, b with
  | PENDING, PENDING | RUNNING, RUNNING | COMPLETED, COMPLETED
  | FAILED, FAILED | CANCELLED, CANCELLED => true
  | _, _ => false
  end.

(** The statuses the state machine of the specification calls terminal. *)
Definition terminal (a : t) : bool :=
  match a with
  | COMPLETED | FAILED | CANCELLED => true
  | PENDING | RUNNING => false
  end.
End JobStatus.

Module ExecutionContext.
Record t := {
  chat_id : string;
  message_id : string;
  sender_id : string;
  message_content : string;
  recent_messages : list (gmap string string);
  thread_messages : list (gmap string string);
  memory_refs : list string
}.
End ExecutionContext.

Module AgentJob.
Record t := {
  job_id : string;
  agent_id : string;
  instruction : string;
  context : ExecutionContext.t;
  tools_allowed : list string;
  memory_scopes : list string;
  timeout_seconds : Z;
  max_retries : Z;
  retry_count : Z;
  status : JobStatus.t;
  created_at : datetime;
  started_at : option datetime;
  completed_at : option datetime
}.

(** [job.status = st] and the two stamps, as assignments to the object. *)
Definition set_status (st : JobStatus.t) (job : t) : t :=
  {| job_id := job_id job; agent_id := agent_id job;
     instruction := instruction job; context := context job;
     tools_allowed := tools_allowed job; memory_scopes := memory_scopes job;
     timeout_seconds := timeout_seconds job; max_retries := max_retries job;
     retry_count := retry_count job; status := st;
     created_at := created_at job; started_at := started_at job;
     completed_at := completed_at job |}.

Definition set_started_at (now : datetime) (job : t) : t :=
  {| job_id := job_id job; agent_id := agent_id job;
     instruction := instruction job; context := context job;
     tools_allowed := tools_allowed job; memory_scopes := memory_scopes job;
     timeout_seconds := timeout_seconds job; max_retries := max_retries job;
     retry_count := retry_count job; status := status job;
     created_at := created_at job; started_at := Some now;
     completed_at := completed_at job |}.


Definition set_completed_at (now : datetime) (job : t) : t :=
  {| job_id := job_id job; agent_id := agent_id job;
     instruction := instruction job; context := context job;
     tools_allowed := tools_allowed job; memory_scopes := memory_scopes job;
     timeout_seconds := timeout_seconds job; max_retries := max_retries job;
     retry_count := retry_count job; status := status job;
     created_at := created_at job; started_at := started_at job;
     completed_at := Some now |}.
End AgentJob.

Module AgentResult.
Record t := {
  job_id : string;
  agent_id : string;
  status : JobStatus.t;
  response : string;
  citations : list string;
  action_items : list ActionItem.t;
  error : option string;
  input_tokens : Z;
  output_tokens : Z;
  started_at : option datetime;
  completed_at : option datetime
}.

(** [AgentResult(job_id=.., agent_id=.., status=FAILED, error=..)] *)
Definition failed (job_id agent_id error : string) : t :=
  {| job_id := job_id; agent_id := agent_id; status := JobStatus.FAILED;
     response := ""; citations := []; action_items := [];
     error := Some error; input_tokens := 0; output_tokens := 0;
     started_at := None; completed_at := None |}.
End AgentResult.

Module AgentConfig.
Record t := {
  model_name : string;
  temperature : Q;
  max_tokens : Z;
  timeout_seconds : Z
}.
End AgentConfig.

Module Agent.
Record t := {
  id : string;
  name : string;
  system_prompt : string;
  config : AgentConfig.t;
  is_active : bool
}.
End Agent.

Module MessageRole.
Inductive t := SYSTEM | USER | ASSISTANT | TOOL.
End MessageRole.

Module ChatMessage.
Record t := { role : MessageRole.t; content : string }.
End ChatMessage.

(** [model/llm.py]: the tool description handed to the backend, and the
    tool call it hands back. *)
Module LLMToolDefinition.
Record t := { name : string; description : string; input_schema : Value }.
End LLMToolDefinition.

Module LLMToolCall.
Record t := { id : string; name : string; parameters : gmap string Value }.
End LLMToolCall.

Module Usage.
Record t := { input_tokens : Z; output_tokens : Z; total_tokens : Z }.
End Usage.

Module ChatResponse.
Record t := {
  id : string;
  content : string;
  model : string;
  tool_calls : option (list LLMToolCall.t);
  usage : Usage.t
}.
End ChatResponse.

(** ** [model/tool.py] *)

Module ToolCategory.
Inductive t :=
  | MEMORY_READ | MEMORY_WRITE | TASK_CREATE
  | SEARCH | WEB | CODE | FILE
  | EMAIL | CALENDAR | SLACK | JIRA.
End ToolCategory.

Module ToolStatus.
Inductive t := PENDING | RUNNING | COMPLETED | FAILED | UNAUTHORIZED.
End ToolStatus.

Module ToolDefinition.
Record t := {
  id : string;
  name : string;
  category : ToolCategory.t;
  description : string;
  input_schema : Value;
  requires_auth : bool;
  auth_scopes : list string;
  is_async : bool;
  rate_limit : option Z;
  rate_window : Z;
  risk_level : string;
  is_active : bool
}.
End ToolDefinition.

Module ToolExecutionResult.
Record t := {
  tool_id : string;
  call_id : Value;
  status : ToolStatus.t;
  output : option Value;
  error : option string;
  started_at : datetime;
  completed_at : datetime
}.
End ToolExecutionResult.

(** ** [AgentRuntime._extract_action_items] *)

(** The body of the loop, on one line: the items it appends. *)
Definition line_action_items (line : string) : list ActionItem.t :=
  let line := Str.strip line in
  if Str.startswith line "- [" || Str.startswith line "* [" then
    let desc := Str.strip (Str.last_piece (Str.split1 "]"%char line)) in
    if negb (String.eqb desc "") && negb (Str.startswith desc "[") then
      [ActionItem.make desc]
    else []
  else [].

Definition _extract_action_items (content : string) : list ActionItem.t :=
  let lines := Str.split Str.newline content in
  fold_left (fun action_items line => action_items ++ line_action_items line)
            lines [].

(** ** [tools/base.py] *)

(** The abstract class [Tool]: a definition, the [execute] coroutine, which
    acts on the outside world and may raise, and [validate_parameters]. *)
Record Tool (W : Type) := {
  definition : ToolDefinition.t;
  execute : gmap string Value -> gmap string Value -> W ->
            Outcome ToolExecutionResult.t * W;
  validate_parameters : gmap string Value -> bool
}.
Arguments definition {W} _.
Arguments execute {W} _ _ _ _.
Arguments validate_parameters {W} _ _.

Module ToolRegistry.
Record t (W : Type) := { _tools : gmap string (Tool W) }.
Arguments _tools {W} _.

Definition empty {W} : t W := {| _tools := ∅ |}.

Definition register {W} (self : t W) (tool : Tool W) : Outcome (t W) :=
  let tool_id := ToolDefinition.id (definition tool) in
  match _tools self !! tool_id with
  | Some _ => Raise ("Tool already registered: " +:+ tool_id)
  | None => Return {| _tools := <[tool_id := tool]> (_tools self) |}
  end.

Definition get {W} (self : t W) (tool_id : string) : option (Tool W) :=
  _tools self !! tool_id.

Definition get_definition {W} (self : t W) (tool_id : string)
  : option ToolDefinition.t :=
  match _tools self !! tool_id with
  | Some tool => Some (definition tool)
  | None => None
  end.

Definition deregister {W} (self : t W) (tool_id : string) : bool * t W :=
  match _tools self !! tool_id with
  | Some _ => (true, {| _tools := delete tool_id (_tools self) |})
  | None => (false, self)
  end.
End ToolRegistry.

Section Runtime.

Variable W : Type.

(** [datetime.utcnow()]: the clock is read off the outside world. *)
Variable utcnow : W -> datetime.

(** ** [tools/engine.py] *)

Record ToolEngine := {
  _registry : ToolRegistry.t W;
  _rate_limit_counters : gmap string (list datetime)
}.

(** [self._rate_limit_counters[tool_id]] of a [defaultdict(list)], read. *)
Definition counter (counters : gmap string (list datetime)) (tool_id : string)
  : list datetime :=
  default [] (counters !! tool_id).

Definition _check_permissions (tool : Tool W) (context : gmap string Value) : bool :=
  if ToolDefinition.requires_auth (definition tool) then
    let user_id := dict_get context "user_id" in
    if negb (truthy user_id) then false else true
  else true.

Definition _check_rate_limit (self : ToolEngine) (tool : Tool W)
    (context : gmap string Value) (w : W) : bool * ToolEngine :=
  match ToolDefinition.rate_limit (definition tool) with
  | None => (true, self)
  | Some rate_limit =>
      let tool_id := ToolDefinition.id (definition tool) in
      let window := ToolDefinition.rate_window (definition tool) in
      let now := utcnow w in
      let cutoff := (now - timedelta window)%Z in
      let cleaned :=
        <[tool_id := List.filter (fun ts => (cutoff <? ts)%Z)
                       (counter (_rate_limit_counters self) tool_id)]>
          (_rate_limit_counters self) in
      if (rate_limit <=? Z.of_nat (length (counter cleaned tool_id)))%Z then
        (false, {| _registry := _registry self; _rate_limit_counters := cleaned |})
      else
        (true, {| _registry := _registry self;
                  _rate_limit_counters :=
                    <[tool_id := counter cleaned tool_id ++ [now]]> cleaned |})
  end.

(** The [ToolExecutionResult] every refusing branch of [execute_tool] builds. *)
Definition refusal (tool_id : string) (context : gmap string Value)
    (status : ToolStatus.t) (error : string) (w : W) : ToolExecutionResult.t :=
  {| ToolExecutionResult.tool_id := tool_id;
     ToolExecutionResult.call_id := dict_get_default context "call_id" (VStr "");
     ToolExecutionResult.status := status;
     ToolExecutionResult.output := None;
     ToolExecutionResult.error := Some error;
     ToolExecutionResult.started_at := utcnow w;
     ToolExecutionResult.completed_at := utcnow w |}.

Definition execute_tool (self : ToolEngine) (tool_id : string)
    (parameters context : gmap string Value) (w : W)
  : Outcome ToolExecutionResult.t * ToolEngine * W :=
  match ToolRegistry.get (_registry self) tool_id with
  | None =>
      (Return (refusal tool_id context ToolStatus.FAILED
                 ("Tool not found: " +:+ tool_id) w), self, w)
  | Some tool =>
      if negb (_check_permissions tool context) then
        (Return (refusal tool_id context ToolStatus.UNAUTHORIZED
                   "Permission denied for tool execution" w), self, w)
      else
        let '(allowed, self) := _check_rate_limit self tool context w in
        if negb allowed then
          (Return (refusal tool_id context ToolStatus.FAILED
                     "Rate limit exceeded" w), self, w)
        else if negb (validate_parameters tool parameters) then
          (Return (refusal tool_id context ToolStatus.FAILED
                     "Invalid parameters" w), self, w)
        else
          (* try: return await tool.execute(parameters, context)
             except Exception as e: ... *)
          match execute tool parameters context w with
          | (Return result, w) => (Return result, self, w)
          | (Raise e, w) =>
              (Return (refusal tool_id context ToolStatus.FAILED e w), self, w)
          end
  end.

Fixpoint get_tool_definitions (self : ToolEngine) (tool_ids : list string)
  : list ToolDefinition.t :=
  match tool_ids with
  | [] => []
  | tool_id :: rest =>
      match ToolRegistry.get_definition (_registry self) tool_id with
      | Some defn => defn :: get_tool_definitions self rest
      | None => get_tool_definitions self rest
      end
  end.

(** ** [agent/runtime.py] *)

(** The address of an [AgentJob] object. *)
Definition ref := nat.

(** The attributes of an [AgentRuntime], the store of the job objects its
    callers and its ledger share, and the outside world. *)
Record State := {
  _agent_registry : gmap string Agent.t;
  _tool_engine : ToolEngine;
  _active_jobs : gmap string ref;
  objects : ref -> AgentJob.t;
  world : W
}.

Definition set_active_jobs (f : gmap string ref -> gmap string ref) (σ : State) : State :=
  {| _agent_registry := _agent_registry σ; _tool_engine := _tool_engine σ;
     _active_jobs := f (_active_jobs σ); objects := objects σ; world := world σ |}.

(** An assignment to an attribute of the object at [job]. *)
Definition update_job (job : ref) (f : AgentJob.t -> AgentJob.t) (σ : State) : State :=
  {| _agent_registry := _agent_registry σ; _tool_engine := _tool_engine σ;
     _active_jobs := _active_jobs σ;
     objects := <[job := f (objects σ job)]> (objects σ); world := world σ |}.

Definition set_engine_world (engine : ToolEngine) (w : W) (σ : State) : State :=
  {| _agent_registry := _agent_registry σ; _tool_engine := engine;
     _active_jobs := _active_jobs σ; objects := objects σ; world := w |}.

(** Computations of the runtime: they read and write the state and either
    return or raise. *)
Definition M (A : Type) : Type := State -> Outcome A * State.

Definition ret {A} (a : A) : M A := fun σ => (Return a, σ).

Definition bind {A B} (m : M A) (k : A -> M B) : M B :=
  fun σ => match m σ with
           | (Return a, σ') => k a σ'
           | (Raise e, σ') => (Raise e, σ')
           end.

Definition modify (f : State -> State) : M unit := fun σ => (Return tt, f σ).

(** [try: body  except Exception as e: handler(e)] *)
Definition try_except {A} (body : M A) (handler : string -> M A) : M A :=
  fun σ => match body σ with
           | (Return a, σ') => (Return a, σ')
           | (Raise e, σ') => handler e σ'
           end.

(** [try: body  finally: final], for a [final] that cannot raise. *)
Definition try_finally {A} (body : M A) (final : State -> State) : M A :=
  fun σ => let '(o, σ') := body σ in (o, final σ').

(** The event loop, as seen from one coroutine: the reply of the backend to
    [chat] with the state found on resumption, and what the other tasks did
    while the coroutine was suspended inside a tool. *)
Record Env := {
  chat : list ChatMessage.t -> option (list LLMToolDefinition.t) -> Q -> Z ->
         M ChatResponse.t;
  meanwhile : State -> State
}.

Definition register_agent (agent : Agent.t) (σ : State) : State :=
  {| _agent_registry := <[Agent.id agent := agent]> (_agent_registry σ);
     _tool_engine := _tool_engine σ; _active_jobs := _active_jobs σ;
     objects := objects σ; world := world σ |}.

Definition get_agent (σ : State) (agent_id : string) : option Agent.t :=
  _agent_registry σ !! agent_id.

Definition cancel_job (job_id : string) (σ : State) : bool * State :=
  match _active_jobs σ !! job_id with
  | Some job =>
      if JobStatus.eqb (AgentJob.status (objects σ job)) JobStatus.RUNNING then
        let σ := update_job job (AgentJob.set_status JobStatus.CANCELLED) σ in
        let σ := update_job job (AgentJob.set_completed_at (utcnow (world σ))) σ in
        let σ := set_active_jobs (delete job_id) σ in
        (true, σ)
      else (false, σ)
  | None => (false, σ)
  end.

Definition _prepare_messages (agent : Agent.t) (job : AgentJob.t)
  : list ChatMessage.t :=
  let messages :=
    [ {| ChatMessage.role := MessageRole.SYSTEM;
         ChatMessage.content := Agent.system_prompt agent |} ] in
  let context_parts :=
    List.map (fun msg : gmap string string =>
                default "user" (msg !! "role") +:+ ": "
                +:+ default "" (msg !! "content"))
             (ExecutionContext.recent_messages (AgentJob.context job)) in
  let messages :=
    match context_parts with
    | [] => messages
    | _ :: _ =>
        messages ++
        [ {| ChatMessage.role := MessageRole.USER;
             ChatMessage.content :=
               "Recent conversation:" +:+ String Str.newline ""
               +:+ Str.join (String Str.newline "") context_parts |} ]
    end in
  messages ++
  [ {| ChatMessage.role := MessageRole.USER;
       ChatMessage.content := AgentJob.instruction job |} ].

(** The [context] dictionary [_handle_tool_calls] gives to the gate. *)
Definition tool_call_context (job : AgentJob.t) (tool_call : LLMToolCall.t)
  : gmap string Value :=
  <["call_id" := VStr (LLMToolCall.id tool_call)]>
    (<["job_id" := VStr (AgentJob.job_id job)]>
       (<["agent_id" := VStr (AgentJob.agent_id job)]>
          (<["chat_id" :=
               VStr (ExecutionContext.chat_id (AgentJob.context job))]> ∅))).

(** One turn of the loop of [_handle_tool_calls]: the call goes through the
    gate, in whose [execute] the coroutine may be suspended, and the result
    is dropped. *)
Definition handle_tool_call (env : Env) (job : ref) (tool_call : LLMToolCall.t)
  : M unit :=
  fun σ =>
    let '(result, engine, w) :=
      execute_tool (_tool_engine σ) (LLMToolCall.name tool_call)
        (LLMToolCall.parameters tool_call)
        (tool_call_context (objects σ job) tool_call) (world σ) in
    let σ := meanwhile env (set_engine_world engine w σ) in
    match result with
    | Return _ => (Return tt, σ)
    | Raise e => (Raise e, σ)
    end.

Fixpoint _handle_tool_calls (env : Env) (job : ref)
    (tool_calls : list LLMToolCall.t) : M unit :=
  match tool_calls with
  | [] => ret tt
  | tool_call :: rest =>
      bind (handle_tool_call env job tool_call)
           (fun _ => _handle_tool_calls env job rest)
  end.

Definition _process_response (agent : Agent.t) (job : ref)
    (response : ChatResponse.t) : M AgentResult.t :=
  fun σ =>
    let action_items := _extract_action_items (ChatResponse.content response) in
    (Return
       {| AgentResult.job_id := AgentJob.job_id (objects σ job);
          AgentResult.agent_id := Agent.id agent;
          AgentResult.status := JobStatus.COMPLETED;
          AgentResult.response := ChatResponse.content response;
          AgentResult.citations := [];
          AgentResult.action_items := action_items;
          AgentResult.error := None;
          AgentResult.input_tokens :=
            Usage.input_tokens (ChatResponse.usage response);
          AgentResult.output_tokens :=
            Usage.output_tokens (ChatResponse.usage response);
          AgentResult.started_at := AgentJob.started_at (objects σ job);
          AgentResult.completed_at := Some (utcnow (world σ)) |}, σ).

(** [job.status = st; job.completed_at = datetime.utcnow()] *)
Definition finish_job (job : ref) (st : JobStatus.t) (σ : State) : State :=
  let σ := update_job job (AgentJob.set_status st) σ in
  update_job job (AgentJob.set_completed_at (utcnow (world σ))) σ.

(** [llm_tools if llm_tools else None], from the tools the job may use that
    are still registered. *)
Definition llm_tools_for (σ : State) (job : ref)
  : option (list LLMToolDefinition.t) :=
  let tool_ids := AgentJob.tools_allowed (objects σ job) in
  let tool_definitions := get_tool_definitions (_tool_engine σ) tool_ids in
  let llm_tools :=
    List.map (fun td =>
                {| LLMToolDefinition.name := ToolDefinition.name td;
                   LLMToolDefinition.description := ToolDefinition.description td;
                   LLMToolDefinition.input_schema := ToolDefinition.input_schema td |})
             tool_definitions in
  match llm_tools with [] => None | _ :: _ => Some llm_tools end.

(** [await self._llm_service.chat(messages=.., tools=.., temperature=..,
    max_tokens=..)] *)
Definition call_backend (env : Env) (agent : Agent.t) (job : ref)
  : M ChatResponse.t :=
  fun σ =>
    chat env (_prepare_messages agent (objects σ job)) (llm_tools_for σ job)
      (AgentConfig.temperature (Agent.config agent))
      (AgentConfig.max_tokens (Agent.config agent)) σ.

(** The block under [try] in [execute_job]. *)
Definition execute_job_try (env : Env) (agent : Agent.t) (job : ref)
  : M AgentResult.t :=
  bind (call_backend env agent job)
    (fun response =>
       bind (match ChatResponse.tool_calls response with
             | Some (tool_call :: rest) =>
                 _handle_tool_calls env job (tool_call :: rest)
             | _ => ret tt
             end)
         (fun _ =>
            bind (_process_response agent job response)
              (fun result =>
                 bind (modify (finish_job job JobStatus.COMPLETED))
                   (fun _ => ret result)))).

(** The handler under [except Exception as e]. *)
Definition execute_job_except (job : ref) (e : string) : M AgentResult.t :=
  fun σ =>
    let σ := finish_job job JobStatus.FAILED σ in
    (Return (AgentResult.failed (AgentJob.job_id (objects σ job))
               (AgentJob.agent_id (objects σ job)) e), σ).

(** The block under [finally]. *)
Definition execute_job_finally (job : ref) (σ : State) : State :=
  set_active_jobs (delete (AgentJob.job_id (objects σ job))) σ.

(** The statements between the lookup of the agent and [try]: the job is
    tracked, marked RUNNING and stamped. *)
Definition execute_job_start (job : ref) (σ : State) : State :=
  let σ := set_active_jobs (<[AgentJob.job_id (objects σ job) := job]>) σ in
  let σ := update_job job (AgentJob.set_status JobStatus.RUNNING) σ in
  update_job job (AgentJob.set_started_at (utcnow (world σ))) σ.

Definition execute_job (env : Env) (job : ref) : M AgentResult.t :=
  fun σ =>
    match get_agent σ (AgentJob.agent_id (objects σ job)) with
    | None =>
        (Return (AgentResult.failed (AgentJob.job_id (objects σ job))
                   (AgentJob.agent_id (objects σ job))
                   ("Agent not found: " +:+ AgentJob.agent_id (objects σ job))),
         σ)
    | Some agent =>
        try_finally
          (try_except (execute_job_try env agent job) (execute_job_except job))
          (execute_job_finally job) (execute_job_start job σ)
    end.

End Runtime.

Arguments _registry {W} _.
Arguments _rate_limit_counters {W} _.
Arguments _check_permissions {W} tool context.
Arguments _check_rate_limit {W} utcnow self tool context w.
Arguments refusal {W} utcnow tool_id context status error w.
Arguments execute_tool {W} utcnow self tool_id parameters context w.
Arguments get_tool_definitions {W} self tool_ids.
Arguments _agent_registry {W} _.
Arguments _tool_engine {W} _.
Arguments _active_jobs {W} _.
Arguments objects {W} _ _.
Arguments world {W} _.
Arguments set_active_jobs {W} f σ.
Arguments update_job {W} job f σ.
Arguments set_engine_world {W} engine w σ.
Arguments ret {W A} a _.
Arguments bind {W A B} m k _.
Arguments modify {W} f _.
Arguments try_except {W A} body handler _.
Arguments try_finally {W A} body final _.
Arguments chat {W} _ _ _ _ _ _.
Arguments meanwhile {W} _ _.
Arguments register_agent {W} agent σ.
Arguments get_agent {W} σ agent_id.
Arguments cancel_job {W} utcnow job_id σ.
Arguments handle_tool_call {W} utcnow env job tool_call _.
Arguments _handle_tool_calls {W} utcnow env job tool_calls _.
Arguments _process_response {W} utcnow agent job response _.
Arguments finish_job {W} utcnow job st σ.
Arguments llm_tools_for {W} σ job.
Arguments call_backend {W} env agent job _.
Arguments execute_job_try {W} utcnow env agent job _.
Arguments execute_job_except {W} utcnow job e _.
Arguments execute_job_finally {W} job σ.
Arguments execute_job_start {W} utcnow job σ.
Arguments execute_job {W} utcnow env job _.

(** ** Notions and sample data the properties are stated with *)

(** The test [line.startswith("- [") or line.startswith("* [")] on the
    trimmed line. *)
Definition checkbox_line (line : string) : bool :=
  Str.startswith (Str.strip line) "- [" || Str.startswith (Str.strip line) "* [".

Definition sample_response : string :=
  "- [ ] call Bob" +:+ String Str.newline "some text"
  +:+ String Str.newline "* [x] ship it".

(** The policy of the rate window in the words of the specification
    (section 4.1): discard the recorded timestamps older than
    [now - window_seconds]; if the remaining count is below the limit,
    append [now] and allow; otherwise refuse. *)
Definition rolling_window_allow (recorded : list datetime) (limit window : Z)
    (now : datetime) : bool * list datetime :=
  let remaining :=
    List.filter (fun ts => negb (ts <? now - timedelta window)%Z) recorded in
  if (Z.of_nat (length remaining) <? limit)%Z then (true, remaining ++ [now])
  else (false, remaining).

(** A sequence of [cancel_job] calls, with the answers in order. *)
Fixpoint cancel_calls {W} (utcnow : W -> datetime) (job_ids : list string)
    (σ : State W) : list (string * bool) * State W :=
  match job_ids with
  | [] => ([], σ)
  | job_id :: rest =>
      let '(answer, σ) := cancel_job utcnow job_id σ in
      let '(answers, σ) := cancel_calls utcnow rest σ in
      ((job_id, answer) :: answers, σ)
  end.

(** How many calls for [job_id] were answered [True]. *)
Definition successes (job_id : string) (answers : list (string * bool)) : nat :=
  length (List.filter
            (fun a : string * bool => String.eqb a.1 job_id && a.2) answers).

(** The tasks that run while a coroutine is suspended leave the [job_id]
    attribute of the object at [job] alone (no statement of the runtime
    assigns it). *)
Definition keeps_job_id {W} (env : Env W) (job : ref) : Prop :=
  (forall messages tools temperature max_tokens σ,
     AgentJob.job_id
       (objects (chat env messages tools temperature max_tokens σ).2 job)
     = AgentJob.job_id (objects σ job))
  /\ (forall σ,
        AgentJob.job_id (objects (meanwhile env σ) job)
        = AgentJob.job_id (objects σ job)).

(** Sample data: a world that is only a clock, three tools, one agent, one
    job. *)
Module Sample.

Definition utcnow (w : Z) : datetime := w.

Definition seconds (n : Z) : Z := timedelta n.

Definition tool_definition (id : string) (requires_auth : bool)
    (rate_limit : option Z) : ToolDefinition.t :=
  {| ToolDefinition.id := id; ToolDefinition.name := id;
     ToolDefinition.category := ToolCategory.SEARCH;
     ToolDefinition.description := "A sample tool";
     ToolDefinition.input_schema := VDict [("type", VStr "object")];
     ToolDefinition.requires_auth := requires_auth;
     ToolDefinition.auth_scopes := [];
     ToolDefinition.is_async := true;
     ToolDefinition.rate_limit := rate_limit;
     ToolDefinition.rate_window := 60;
     ToolDefinition.risk_level := "low";
     ToolDefinition.is_active := true |}.

(** A tool that answers with its [value] parameter and takes one second. *)
Definition echo (id : string) (requires_auth : bool) (rate_limit : option Z)
  : Tool Z :=
  {| definition := tool_definition id requires_auth rate_limit;
     execute := fun parameters context w =>
       (Return {| ToolExecutionResult.tool_id := id;
                  ToolExecutionResult.call_id :=
                    dict_get_default context "call_id" (VStr "");
                  ToolExecutionResult.status := ToolStatus.COMPLETED;
                  ToolExecutionResult.output := parameters !! "value";
                  ToolExecutionResult.error := None;
                  ToolExecutionResult.started_at := w;
                  ToolExecutionResult.completed_at := (w + seconds 1)%Z |},
        (w + seconds 1)%Z);
     validate_parameters := fun parameters =>
       match parameters !! "value" with Some _ => true | None => false end |}.

(** A tool whose [execute] raises. *)
Definition broken : Tool Z :=
  {| definition := tool_definition "broken" false None;
     execute := fun _ _ w => (Raise "boom", w);
     validate_parameters := fun _ => true |}.

Definition limited : Tool Z := echo "limited" false (Some 2%Z).
Definition guarded : Tool Z := echo "guarded" true (Some 1%Z).

Definition registry : ToolRegistry.t Z :=
  {| ToolRegistry._tools :=
       <["limited" := limited]>
         (<["guarded" := guarded]> (<["broken" := broken]> ∅)) |}.

Definition engine : ToolEngine Z :=
  {| _registry := registry; _rate_limit_counters := ∅ |}.

(** The engine after one call of [guarded] at time 0: its window is full. *)
Definition engine_exhausted : ToolEngine Z :=
  {| _registry := registry; _rate_limit_counters := {["guarded" := [0%Z]]} |}.

(** The engine with one call of [limited] recorded at time 0. *)
Definition engine_one_call : ToolEngine Z :=
  {| _registry := registry; _rate_limit_counters := {["limited" := [0%Z]]} |}.

Definition value_parameters : gmap string Value := {["value" := VStr "v"]}.

(** Four rate checks of [limited] at the given clock readings. *)
Definition four_checks (t1 t2 t3 t4 : Z) : list bool :=
  let '(b1, e1) := _check_rate_limit utcnow engine limited ∅ t1 in
  let '(b2, e2) := _check_rate_limit utcnow e1 limited ∅ t2 in
  let '(b3, e3) := _check_rate_limit utcnow e2 limited ∅ t3 in
  let '(b4, e4) := _check_rate_limit utcnow e3 limited ∅ t4 in
  [b1; b2; b3; b4].

Definition agent : Agent.t :=
  {| Agent.id := "helper"; Agent.name := "Helper";
     Agent.system_prompt := "You are a helpful agent";
     Agent.config :=
       {| AgentConfig.model_name := "claude-3-5-sonnet-20241022";
          AgentConfig.temperature := 7 # 10;
          AgentConfig.max_tokens := 2000;
          AgentConfig.timeout_seconds := 30 |};
     Agent.is_active := true |}.

(** The job "job-1": PENDING, with a budget of [timeout] seconds. *)
Definition job (agent_id : string) (timeout : Z) : AgentJob.t :=
  {| AgentJob.job_id := "job-1"; AgentJob.agent_id := agent_id;
     AgentJob.instruction := "Summarize our discussion";
     AgentJob.context :=
       {| ExecutionContext.chat_id := "chat-123";
          ExecutionContext.message_id := "msg-456";
          ExecutionContext.sender_id := "user-789";
          ExecutionContext.message_content := "Summarize our discussion";
          ExecutionContext.recent_messages := [];
          ExecutionContext.thread_messages := [];
          ExecutionContext.memory_refs := [] |};
     AgentJob.tools_allowed := [];
     AgentJob.memory_scopes := [];
     AgentJob.timeout_seconds := timeout;
     AgentJob.max_retries := 3; AgentJob.retry_count := 0;
     AgentJob.status := JobStatus.PENDING;
     AgentJob.created_at := 0%Z;
     AgentJob.started_at := None; AgentJob.completed_at := None |}.

(** A runtime with [agent] registered, an empty ledger, the clock at 0, and
    the job above at every address. *)
Definition state (agent_id : string) (timeout : Z) : State Z :=
  {| _agent_registry := {["helper" := agent]};
     _tool_engine := engine;
     _active_jobs := ∅;
     objects := fun _ => job agent_id timeout;
     world := 0%Z |}.

Definition advance (d : Z) (σ : State Z) : State Z :=
  set_engine_world (_tool_engine σ) (world σ + d)%Z σ.

Definition reply (text : string) (tool_calls : option (list LLMToolCall.t))
  : ChatResponse.t :=
  {| ChatResponse.id := "msg_01"; ChatResponse.content := text;
     ChatResponse.model := "claude-3-5-sonnet-20241022";
     ChatResponse.tool_calls := tool_calls;
     ChatResponse.usage :=
       {| Usage.input_tokens := 12; Usage.output_tokens := 3;
          Usage.total_tokens := 15 |} |}.

(** A backend that answers [text] after [d] seconds, nothing else running. *)
Definition answering (d : Z) (text : string)
    (tool_calls : option (list LLMToolCall.t)) : Env Z :=
  {| chat := fun _ _ _ _ σ => (Return (reply text tool_calls), advance (seconds d) σ);
     meanwhile := fun σ => σ |}.


(** A backend that answers after 5 seconds, while another task cancels
    "job-1" 2 seconds into the call. *)
Definition cancelled_meanwhile (text : string) : Env Z :=
  {| chat := fun _ _ _ _ σ =>
       let σ := (cancel_job utcnow "job-1" (advance (seconds 2) σ)).2 in
       (Return (reply text None), advance (seconds 3) σ);
     meanwhile := fun σ => σ |}.

(** "job-1" as [execute_job] leaves it when it is suspended on the backend. *)
Definition running : State Z := execute_job_start utcnow 0 (state "helper" 30).


End Sample.

(** ** More of the code: the batch call of the gate *)


(** Every tool of the registry sits under the id of its own definition, as
    [ToolRegistry.register] puts it. *)
Definition well_keyed {W} (self : ToolRegistry.t W) : Prop :=
  forall tool_id tool,
    ToolRegistry.get self tool_id = Some tool ->
    ToolDefinition.id (definition tool) = tool_id.

(** Successive rate checks of one tool, at the worlds [ws], with the answers
    in order. *)
Fixpoint rate_checks {W} (utcnow : W -> datetime) (self : ToolEngine W)
    (tool : Tool W) (ws : list W) : list bool * ToolEngine W :=
  match ws with
  | [] => ([], self)
  | w :: rest =>
      let '(answer, self) := _check_rate_limit utcnow self tool ∅ w in
      let '(answers, self) := rate_checks utcnow self tool rest in
      (answer :: answers, self)
  end.

(** The clock readings of the checks that were allowed. *)
Fixpoint allowed_times {W} (utcnow : W -> datetime) (ws : list W)
    (answers : list bool) : list datetime :=
  match ws, answers with
  | w :: ws, true :: answers => utcnow w :: allowed_times utcnow ws answers
  | _ :: ws, false :: answers => allowed_times utcnow ws answers
  | _, _ => []
  end.

(** The clock does not run backwards along [ws]. *)
Fixpoint clock_monotone {W} (utcnow : W -> datetime) (ws : list W) : Prop :=
  match ws with
  | [] => True
  | w :: rest =>
      (forall w', In w' rest -> (utcnow w <= utcnow w')%Z)
      /\ clock_monotone utcnow rest
  end.

(** The timestamps a tool has in its rate window, the cutoff of a check made
    in the world [w], and the timestamps later than a cutoff. *)
Definition window_log {W} (self : ToolEngine W) (tool : Tool W) : list datetime :=
  counter (_rate_limit_counters self) (ToolDefinition.id (definition tool)).

Definition cutoff_at {W} (utcnow : W -> datetime) (tool : Tool W) (w : W) : Z :=
  (utcnow w - timedelta (ToolDefinition.rate_window (definition tool)))%Z.

Definition later_than (cutoff : Z) (timestamps : list datetime) : list datetime :=
  List.filter (fun ts => (cutoff <? ts)%Z) timestamps.

(** ** More of the code: schedules and job objects the properties speak of *)

(** The job object with another [tools_allowed]. *)
Definition with_tools_allowed (allowed : list string) (job : AgentJob.t) : AgentJob.t :=
  {| AgentJob.job_id := AgentJob.job_id job;
     AgentJob.agent_id := AgentJob.agent_id job;
     AgentJob.instruction := AgentJob.instruction job;
     AgentJob.context := AgentJob.context job;
     AgentJob.tools_allowed := allowed;
     AgentJob.memory_scopes := AgentJob.memory_scopes job;
     AgentJob.timeout_seconds := AgentJob.timeout_seconds job;
     AgentJob.max_retries := AgentJob.max_retries job;
     AgentJob.retry_count := AgentJob.retry_count job;
     AgentJob.status := AgentJob.status job;
     AgentJob.created_at := AgentJob.created_at job;
     AgentJob.started_at := AgentJob.started_at job;
     AgentJob.completed_at := AgentJob.completed_at job |}.

(** A schedule: while the coroutine is suspended on the backend, another
    task calls [execute_job] for the job at [other], which runs up to its own
    call of the backend; then the backend answers [response]. *)
Definition other_job_starts {W} (utcnow : W -> datetime) (other : ref)
    (response : ChatResponse.t) : Env W :=
  {| chat := fun _ _ _ _ σ => (Return response, execute_job_start utcnow other σ);
     meanwhile := fun σ => σ |}.

(** ** [tools/memory_tools.py] and [tools/search_tools.py] *)










(** ** [llm/factory.py] and [AgentRuntime.__init__] *)

Module PyStr.

(** [c.lower()] for a code point below 256: the ASCII capitals and the
    capitals of Latin-1 (all of 0xC0..0xDE but the multiplication sign). *)
Definition lower_char (c : ascii) : ascii :=
  let n := nat_of_ascii c in
  if ((65 <=? n) && (n <=? 90))
     || ((192 <=? n) && (n <=? 222) && negb (n =? 215))
  then ascii_of_nat (n + 32) else c.

(** [s.lower()] *)
Fixpoint lower (s : string) : string :=
  match s with
  | EmptyString => EmptyString
  | String c s' => String (lower_char c) (lower s')
  end.

(** [sub in s] *)
Fixpoint has (s sub : string) : bool :=
  String.prefix sub s
  || match s with
     | EmptyString => false
     | String _ s' => has s' sub
     end.

End PyStr.

(** What [AnthropicLLMService.__init__] keeps of its arguments; the two
    clients it builds take the same [timeout]. *)
Module AnthropicLLMService.
Record t := {
  model : string;
  default_max_tokens : Z;
  default_temperature : Q;
  timeout : Z
}.
End AnthropicLLMService.

Module LLMServiceFactory.

Definition _infer_provider (model_name : string) : string :=
  let model_lower := PyStr.lower model_name in
  if PyStr.has model_lower "claude" then "anthropic"
  else if PyStr.has model_lower "gpt" then "openai"
  else "anthropic".

Definition create_from_config (config : AgentConfig.t) (api_key : option string)
    (provider : option string) : Outcome AnthropicLLMService.t :=
  let provider :=
    match provider with
    | None => _infer_provider (AgentConfig.model_name config)
    | Some provider => provider
    end in
  if String.eqb provider "anthropic" then
    match api_key with
    | None => Raise "API key is required for Anthropic"
    | Some _ =>
        Return {| AnthropicLLMService.model := AgentConfig.model_name config;
                  AnthropicLLMService.default_max_tokens :=
                    AgentConfig.max_tokens config;
                  AnthropicLLMService.default_temperature :=
                    AgentConfig.temperature config;
                  AnthropicLLMService.timeout :=
                    AgentConfig.timeout_seconds config |}
    end
  else Raise ("Unsupported provider: " +:+ provider).

End LLMServiceFactory.

(** [AgentConfig(model_name=llm_model)]: the other fields take their
    defaults. *)
Definition AgentConfig_of_model (llm_model : string) : AgentConfig.t :=
  {| AgentConfig.model_name := llm_model;
     AgentConfig.temperature := 7 # 10;
     AgentConfig.max_tokens := 2000;
     AgentConfig.timeout_seconds := 30 |}.

(** [AgentRuntime.__init__]: the backend service and the attributes of the
    new runtime, in a world and a store of job objects that are given. *)
Definition AgentRuntime_init {W} (llm_api_key llm_model : string)
    (objects : ref -> AgentJob.t) (w : W)
  : Outcome (AnthropicLLMService.t * State W) :=
  match LLMServiceFactory.create_from_config (AgentConfig_of_model llm_model)
          (Some llm_api_key) None with
  | Raise e => Raise e
  | Return service =>
      Return (service,
              {| _agent_registry := ∅;
                 _tool_engine := {| _registry := ToolRegistry.empty;
                                    _rate_limit_counters := ∅ |};
                 _active_jobs := ∅;
                 objects := objects;
                 world := w |})
  end.

(** More sample data: a tool anyone may call, and a runtime that has it. *)
Module Sample2.

Definition open_tool : Tool Z := Sample.echo "open" false None.

Definition state : State Z :=
  {| _agent_registry := {["helper" := Sample.agent]};
     _tool_engine :=
       {| _registry := {| ToolRegistry._tools := {["open" := open_tool]} |};
          _rate_limit_counters := ∅ |};
     _active_jobs := ∅;
     objects := fun _ => Sample.job "helper" 30;
     world := 0%Z |}.

Definition open_call : LLMToolCall.t :=
  {| LLMToolCall.id := "call-2"; LLMToolCall.name := "open";
     LLMToolCall.parameters := Sample.value_parameters |}.



End Sample2.

(** ** [ToolRegistry.list_tools] *)

#[global] Instance ToolCategory_eq_dec : EqDecision ToolCategory.t.
Proof. solve_decision. Defined.

(** [list_tools(category, active_only)].  Python lists the tools in the order
    they were registered; a [gmap] does not keep that order, so the list
    here holds the same definitions in the order of the map. *)
Definition list_tools {W} (self : ToolRegistry.t W)
    (category : option ToolCategory.t) (active_only : bool)
  : list ToolDefinition.t :=
  let tools := List.map snd (map_to_list (ToolRegistry._tools self)) in
  let tools :=
    match category with
    | Some category =>
        List.filter
          (fun t => bool_decide (ToolDefinition.category (definition t) = category))
          tools
    | None => tools
    end in
  let tools :=
    if active_only then
      List.filter (fun t => ToolDefinition.is_active (definition t)) tools
    else tools in
  List.map definition tools.

(** ** [llm/anthropic.py]: the request [chat] sends *)

(** [role.value] *)
Definition MessageRole_value (role : MessageRole.t) : string :=
  match role with
  | MessageRole.SYSTEM => "system"
  | MessageRole.USER => "user"
  | MessageRole.ASSISTANT => "assistant"
  | MessageRole.TOOL => "tool"
  end.

(** The keyword arguments [chat] looks at.  A key can be missing; the
    temperature can also be passed as [None]. *)
Module ChatKwargs.
Record t := {
  max_tokens : option Z;
  temperature : option (option Q);
  model : option string
}.
End ChatKwargs.

(** [request_kwargs]: the keys [system], [temperature] and [tools] can be
    missing. *)
Module AnthropicRequest.
Record t := {
  model : string;
  messages : list (string * string);
  max_tokens : Z;
  system : option string;
  temperature : option Q;
  tools : option (list LLMToolDefinition.t)
}.
End AnthropicRequest.

(** [msg.role == MessageRole.SYSTEM] *)
Definition is_system (msg : ChatMessage.t) : bool :=
  match ChatMessage.role msg with
  | MessageRole.SYSTEM => true
  | _ => false
  end.

(** The loop of [chat] over the messages: the content of the last SYSTEM
    message, and the other messages as role and content. *)
Fixpoint convert_messages (messages : list ChatMessage.t)
    (system_message : option string) (anthropic_messages : list (string * string))
  : option string * list (string * string) :=
  match messages with
  | [] => (system_message, anthropic_messages)
  | msg :: rest =>
      match ChatMessage.role msg with
      | MessageRole.SYSTEM =>
          convert_messages rest (Some (ChatMessage.content msg)) anthropic_messages
      | role =>
          convert_messages rest system_message
            (anthropic_messages
             ++ [(MessageRole_value role, ChatMessage.content msg)])
      end
  end.

(** [AnthropicLLMService.chat], up to the call of the client. *)
Definition chat_request (self : AnthropicLLMService.t)
    (messages : list ChatMessage.t) (tools : option (list LLMToolDefinition.t))
    (kwargs : ChatKwargs.t) : AnthropicRequest.t :=
  let max_tokens :=
    default (AnthropicLLMService.default_max_tokens self)
            (ChatKwargs.max_tokens kwargs) in
  let temperature :=
    default (Some (AnthropicLLMService.default_temperature self))
            (ChatKwargs.temperature kwargs) in
  let model := default (AnthropicLLMService.model self) (ChatKwargs.model kwargs) in
  let '(system_message, anthropic_messages) := convert_messages messages None [] in
  let tools_dict :=
    match tools with
    | Some (tool :: rest) =>
        Some (List.map
                (fun tool =>
                   {| LLMToolDefinition.name := LLMToolDefinition.name tool;
                      LLMToolDefinition.description :=
                        LLMToolDefinition.description tool;
                      LLMToolDefinition.input_schema :=
                        LLMToolDefinition.input_schema tool |})
                (tool :: rest))
    | _ => None
    end in
  {| AnthropicRequest.model := model;
     AnthropicRequest.messages := anthropic_messages;
     AnthropicRequest.max_tokens := max_tokens;
     AnthropicRequest.system :=
       match system_message with
       | Some text => if String.eqb text "" then None else Some text
       | None => None
       end;
     AnthropicRequest.temperature := temperature;
     AnthropicRequest.tools := tools_dict |}.

(** The request [execute_job] makes of the service: [chat] is called with
    [messages], [tools], [temperature] and [max_tokens], and no [model]. *)
Definition job_request {W} (service : AnthropicLLMService.t) (agent : Agent.t)
    (job : ref) (σ : State W) : AnthropicRequest.t :=
  chat_request service (_prepare_messages agent (objects σ job))
    (llm_tools_for σ job)
    {| ChatKwargs.max_tokens := Some (AgentConfig.max_tokens (Agent.config agent));
       ChatKwargs.temperature :=
         Some (Some (AgentConfig.temperature (Agent.config agent)));
       ChatKwargs.model := None |}.

(** Sample data for the listing and for the requests. *)
Module Sample3.

(** A tool that was switched off. *)
Definition retired_tool : Tool Z :=
  {| definition :=
       {| ToolDefinition.id := "retired"; ToolDefinition.name := "retired";
          ToolDefinition.category := ToolCategory.WEB;
          ToolDefinition.description := "A tool no longer offered";
          ToolDefinition.input_schema := VDict [("type", VStr "object")];
          ToolDefinition.requires_auth := false;
          ToolDefinition.auth_scopes := [];
          ToolDefinition.is_async := true;
          ToolDefinition.rate_limit := None;
          ToolDefinition.rate_window := 60;
          ToolDefinition.risk_level := "low";
          ToolDefinition.is_active := false |};
     execute := execute Sample2.open_tool;
     validate_parameters := validate_parameters Sample2.open_tool |}.

Definition retired_registry : ToolRegistry.t Z :=
  {| ToolRegistry._tools := {["retired" := retired_tool]} |}.


Definition service : AnthropicLLMService.t :=
  {| AnthropicLLMService.model := "claude-3-5-sonnet-20241022";
     AnthropicLLMService.default_max_tokens := 2000;
     AnthropicLLMService.default_temperature := 7 # 10;
     AnthropicLLMService.timeout := 30 |}.


End Sample3.

(** * Properties *)

(** ** Strings *)

Lemma ascii_eqb_refl' (c : ascii) : Ascii.eqb c c = true.
Proof. apply Ascii.eqb_eq. reflexivity. Qed.

(** Cutting at the first separator: when [pre] has no [sep], the last piece
    of [pre sep post] is [post], whatever [post] holds. *)
Lemma split1_cut (sep : ascii) (pre post : string) :
  Str.mem sep pre = false ->
  Str.split1 sep (pre +:+ String sep post) = [pre; post].
Proof.
  induction pre as [|c pre IH]; simpl; intros Hmem.
  - rewrite ascii_eqb_refl'. reflexivity.
  - apply orb_false_iff in Hmem as [Hc Hpre].
    rewrite Hc, (IH Hpre). reflexivity.
Qed.

Lemma last_piece_cut (sep : ascii) (pre post : string) :
  Str.mem sep pre = false ->
  Str.last_piece (Str.split1 sep (pre +:+ String sep post)) = post.
Proof. intros H. rewrite (split1_cut _ _ _ H). reflexivity. Qed.

(** The loop that appends is a [flat_map]. *)
Lemma fold_append_flat_map {A B} (f : A -> list B) (l : list A) (acc : list B) :
  fold_left (fun acc x => acc ++ f x) l acc = acc ++ flat_map f l.
Proof.
  revert acc. induction l as [|x l IH]; intros acc; simpl.
  - rewrite app_nil_r. reflexivity.
  - rewrite IH, <- app_assoc. reflexivity.
Qed.

(** ** Follow-up extraction *)

(** C7, as the source has it.  The scan goes line by line and keeps the
    order.  A line that after trimming begins with "- [" or "* [" and
    holds a "]" contributes one item, described by the trimmed text after
    the first "]", when that text is not empty and does not start with "[",
    and nothing when it is empty or starts with "[".  A line that does not
    begin with "- [" or "* [" contributes nothing.  The function is total.
    The three-line sample gives "call Bob" and "ship it". *)
Theorem extract_action_items_line_scan :
  (forall content,
     _extract_action_items content
     = flat_map line_action_items (Str.split Str.newline content))
  /\ (forall line pre post,
        checkbox_line line = true ->
        Str.strip line = pre +:+ String "]" post ->
        Str.mem "]" pre = false ->
        line_action_items line
        = if negb (String.eqb (Str.strip post) "")
             && negb (Str.startswith (Str.strip post) "[")
          then [ActionItem.make (Str.strip post)]
          else [])
  /\ (forall line, checkbox_line line = false -> line_action_items line = [])
  /\ ActionItem.description <$> _extract_action_items sample_response
     = ["call Bob"; "ship it"].
Proof.
  split; [|split; [|split]].
  - intros content. unfold _extract_action_items.
    apply (fold_append_flat_map line_action_items).
  - intros line pre post Hshape Hline Hpre.
    unfold line_action_items. unfold checkbox_line in Hshape.
    rewrite Hshape, Hline, (last_piece_cut _ _ _ Hpre). reflexivity.
  - intros line Hshape. unfold line_action_items.
    unfold checkbox_line in Hshape. rewrite Hshape. reflexivity.
  - vm_compute. reflexivity.
Qed.

(** C7, as the specification words it, fails on a checkbox with nothing
    after it: the line "- [ ]" begins with "- [", the trimmed text after its
    first "]" is empty, so does not start with "[", and yet the line
    contributes no item. *)
Lemma extract_action_items_empty_description :
  checkbox_line "- [ ]" = true
  /\ Str.strip "- [ ]" = "- [ " +:+ String "]" ""
  /\ Str.mem "]" "- [ " = false
  /\ Str.startswith (Str.strip "") "[" = false
  /\ _extract_action_items "- [ ]" = [].
Proof. vm_compute. repeat split. Qed.

Lemma extract_action_items_line_scan_witness :
  checkbox_line "  - [ ] call Bob " = true
  /\ Str.strip "  - [ ] call Bob " = "- [ " +:+ String "]" " call Bob"
  /\ Str.mem "]" "- [ " = false
  /\ line_action_items "  - [ ] call Bob " = [ActionItem.make "call Bob"].
Proof.
  split; [reflexivity|]. split; [reflexivity|]. split; [reflexivity|].
  exact (proj1 (proj2 extract_action_items_line_scan)
           "  - [ ] call Bob " "- [ " " call Bob" eq_refl eq_refl eq_refl).
Defined.

(** ** The invocation gate *)

Section Gate.

Context {W : Type} (utcnow : W -> datetime).

Lemma check_permissions_no_user (tool : Tool W) (context : gmap string Value) :
  ToolDefinition.requires_auth (definition tool) = true ->
  context !! "user_id" = None ->
  _check_permissions tool context = false.
Proof.
  intros Hauth Huser. unfold _check_permissions, dict_get.
  rewrite Hauth, Huser. reflexivity.
Qed.

(** The gate returns on every path: the one call that can raise is
    [execute], and its exception is turned into a result. *)
Lemma execute_tool_total (self : ToolEngine W) tool_id parameters context w :
  exists result, (execute_tool utcnow self tool_id parameters context w).1.1
                 = Return result.
Proof.
  unfold execute_tool.
  destruct (ToolRegistry.get (_registry self) tool_id) as [tool|]; [|eauto].
  destruct (negb (_check_permissions tool context)); [eauto|].
  destruct (_check_rate_limit utcnow self tool context w) as [allowed self'].
  destruct (negb allowed); [eauto|].
  destruct (negb (validate_parameters tool parameters)); [eauto|].
  destruct (execute tool parameters context w) as [[e|result] w']; eauto.
Qed.

(** A tool that has been deregistered is refused as not found. *)
Lemma execute_tool_after_deregister (self : ToolEngine W) tool_id parameters context w :
  let self' := {| _registry := (ToolRegistry.deregister (_registry self) tool_id).2;
                  _rate_limit_counters := _rate_limit_counters self |} in
  execute_tool utcnow self' tool_id parameters context w
  = (Return (refusal utcnow tool_id context ToolStatus.FAILED
               ("Tool not found: " +:+ tool_id) w), self', w).
Proof.
  intros self'. unfold execute_tool.
  assert (ToolRegistry.get (_registry self') tool_id = None) as ->; [|reflexivity].
  subst self'. unfold ToolRegistry.deregister, ToolRegistry.get. simpl.
  destruct (ToolRegistry._tools (_registry self) !! tool_id) eqn:Hget; simpl.
  - apply lookup_delete_eq.
  - exact Hget.
Qed.


(** C2.  The checks run in the order existence, authorization, rate limit,
    parameter validation, dispatch, and the first that fails decides: an
    unknown tool is refused before anything else, a refused authorization
    leaves the rate window and the world untouched, a refused rate leaves
    the parameters unvalidated and the tool not run, refused parameters
    leave the tool not run.  So a tool that requires auth, called with no
    [user_id] in the context, answers UNAUTHORIZED in every state of the rate
    window, an exhausted one included. *)
Theorem execute_tool_check_order (self : ToolEngine W) tool_id parameters context w :
  (ToolRegistry.get (_registry self) tool_id = None ->
   execute_tool utcnow self tool_id parameters context w
   = (Return (refusal utcnow tool_id context ToolStatus.FAILED
                ("Tool not found: " +:+ tool_id) w), self, w))
  /\ (forall tool,
        ToolRegistry.get (_registry self) tool_id = Some tool ->
        (_check_permissions tool context = false ->
         execute_tool utcnow self tool_id parameters context w
         = (Return (refusal utcnow tool_id context ToolStatus.UNAUTHORIZED
                      "Permission denied for tool execution" w), self, w))
        /\ (forall allowed self',
              _check_permissions tool context = true ->
              _check_rate_limit utcnow self tool context w = (allowed, self') ->
              (allowed = false ->
               execute_tool utcnow self tool_id parameters context w
               = (Return (refusal utcnow tool_id context ToolStatus.FAILED
                            "Rate limit exceeded" w), self', w))
              /\ (allowed = true ->
                  validate_parameters tool parameters = false ->
                  execute_tool utcnow self tool_id parameters context w
                  = (Return (refusal utcnow tool_id context ToolStatus.FAILED
                               "Invalid parameters" w), self', w))
              /\ (allowed = true ->
                  validate_parameters tool parameters = true ->
                  forall result w',
                    execute tool parameters context w = (Return result, w') ->
                    execute_tool utcnow self tool_id parameters context w
                    = (Return result, self', w')))
        /\ (ToolDefinition.requires_auth (definition tool) = true ->
            context !! "user_id" = None ->
            exists result,
              execute_tool utcnow self tool_id parameters context w
              = (Return result, self, w)
              /\ ToolExecutionResult.status result = ToolStatus.UNAUTHORIZED)).
Proof.
  split.
  - intros Hget. unfold execute_tool. rewrite Hget. reflexivity.
  - intros tool Hget.
    assert (Hdenied : _check_permissions tool context = false ->
              execute_tool utcnow self tool_id parameters context w
              = (Return (refusal utcnow tool_id context ToolStatus.UNAUTHORIZED
                           "Permission denied for tool execution" w), self, w)).
    { intros Hperm. unfold execute_tool. rewrite Hget, Hperm. reflexivity. }
    split; [exact Hdenied|]. split.
    + intros allowed self' Hperm Hrate. repeat split.
      * intros ->. unfold execute_tool. rewrite Hget, Hperm, Hrate. reflexivity.
      * intros -> Hvalid. unfold execute_tool.
        rewrite Hget, Hperm, Hrate, Hvalid. reflexivity.
      * intros -> Hvalid result w' Hexec. unfold execute_tool.
        rewrite Hget, Hperm, Hrate, Hvalid, Hexec. reflexivity.
    + intros Hauth Huser. eexists. split.
      * apply Hdenied, check_permissions_no_user; assumption.
      * reflexivity.
Qed.

End Gate.


Lemma execute_tool_check_order_witness :
  ToolRegistry.get (_registry Sample.engine_exhausted) "guarded"
  = Some Sample.guarded
  /\ ToolDefinition.requires_auth (definition Sample.guarded) = true
  /\ (∅ : gmap string Value) !! "user_id" = None
  /\ (_check_rate_limit Sample.utcnow Sample.engine_exhausted Sample.guarded
        ∅ (Sample.seconds 1)).1 = false
  /\ exists result,
       execute_tool Sample.utcnow Sample.engine_exhausted "guarded"
         Sample.value_parameters ∅ (Sample.seconds 1)
       = (Return result, Sample.engine_exhausted, Sample.seconds 1)
       /\ ToolExecutionResult.status result = ToolStatus.UNAUTHORIZED.
Proof.
  do 4 (split; [reflexivity|]).
  exact (proj2 (proj2 (proj2 (execute_tool_check_order Sample.utcnow
                                Sample.engine_exhausted "guarded"
                                Sample.value_parameters ∅ (Sample.seconds 1))
                               Sample.guarded eq_refl))
           eq_refl eq_refl).
Defined.

(** ** The rate window *)

Section RateWindow.

Context {W : Type} (utcnow : W -> datetime).

Lemma counter_insert_eq (counters : gmap string (list datetime)) tool_id l :
  counter (<[tool_id := l]> counters) tool_id = l.
Proof. unfold counter. rewrite lookup_insert_eq. reflexivity. Qed.

(** C6, as the source has it.  With no limit declared the check allows the
    call and records nothing.  With a limit, the timestamps of the tool that
    are not later than [now - window] are discarded (one equal to
    [now - window] goes too); when fewer than [limit] remain, [now] is
    recorded after them and the call is allowed, otherwise it is refused;
    the windows of the other tools and the registry stay as they are.  With
    limit 2 and a window of 60 seconds, three checks at the same instant
    answer true, true, false, and a fourth 61 seconds later answers true. *)
Theorem check_rate_limit_rolling_window (self : ToolEngine W) (tool : Tool W)
    (context : gmap string Value) (w : W) :
  (ToolDefinition.rate_limit (definition tool) = None ->
   _check_rate_limit utcnow self tool context w = (true, self))
  /\ (forall limit,
        ToolDefinition.rate_limit (definition tool) = Some limit ->
        let tool_id := ToolDefinition.id (definition tool) in
        let now := utcnow w in
        let cutoff := (now - timedelta (ToolDefinition.rate_window (definition tool)))%Z in
        let kept := List.filter (fun ts => (cutoff <? ts)%Z)
                      (counter (_rate_limit_counters self) tool_id) in
        let answer := _check_rate_limit utcnow self tool context w in
        _registry answer.2 = _registry self
        /\ (forall other, other <> tool_id ->
              _rate_limit_counters answer.2 !! other
              = _rate_limit_counters self !! other)
        /\ ((Z.of_nat (length kept) < limit)%Z ->
            answer.1 = true
            /\ _rate_limit_counters answer.2 !! tool_id = Some (kept ++ [now]))
        /\ ((limit <= Z.of_nat (length kept))%Z ->
            answer.1 = false
            /\ _rate_limit_counters answer.2 !! tool_id = Some kept))
  /\ Sample.four_checks 0 0 0 (Sample.seconds 61) = [true; true; false; true].
Proof.
  split; [|split].
  - intros Hnone. unfold _check_rate_limit. rewrite Hnone. reflexivity.
  - intros limit Hlimit tool_id now cutoff kept answer.
    subst answer. unfold _check_rate_limit. rewrite Hlimit.
    fold tool_id now cutoff kept. rewrite counter_insert_eq.
    unfold datetime in *.
    destruct (limit <=? Z.of_nat (length kept))%Z eqn:Hfull; simpl.
    + apply Z.leb_le in Hfull. split; [reflexivity|]. split.
      * intros other Hother. rewrite lookup_insert_ne by congruence. reflexivity.
      * split; [lia|]. intros _. split; [reflexivity|]. apply lookup_insert_eq.
    + apply Z.leb_gt in Hfull. split; [reflexivity|]. split.
      * intros other Hother. rewrite !lookup_insert_ne by congruence. reflexivity.
      * split; [|lia]. intros _. split; [reflexivity|]. apply lookup_insert_eq.
  - vm_compute. reflexivity.
Qed.

End RateWindow.

(** C6, as the specification words it, fails on the edge of the window.  The
    tool allows one call per 60 seconds and has one call recorded at time 0;
    60 seconds later that timestamp is not older than [now - window], so the
    worded policy keeps it and refuses, while the check drops it and
    allows. *)
Lemma check_rate_limit_window_edge :
  ToolDefinition.rate_limit (definition Sample.guarded) = Some 1%Z
  /\ ToolDefinition.rate_window (definition Sample.guarded) = 60%Z
  /\ counter (_rate_limit_counters Sample.engine_exhausted) "guarded" = [0%Z]
  /\ (rolling_window_allow [0%Z] 1 60 (Sample.seconds 60)).1 = false
  /\ (_check_rate_limit Sample.utcnow Sample.engine_exhausted Sample.guarded
        ∅ (Sample.seconds 60)).1 = true.
Proof. repeat split. Qed.

Lemma check_rate_limit_rolling_window_witness :
  ToolDefinition.rate_limit (definition Sample.limited) = Some 2%Z
  /\ (_check_rate_limit Sample.utcnow Sample.engine_one_call Sample.limited
        ∅ (Sample.seconds 5)).1 = true
  /\ _rate_limit_counters
       (_check_rate_limit Sample.utcnow Sample.engine_one_call Sample.limited
          ∅ (Sample.seconds 5)).2 !! "limited"
     = Some [0%Z; Sample.seconds 5].
Proof.
  split; [reflexivity|].
  exact (proj1 (proj2 (proj2 (proj1 (proj2
           (check_rate_limit_rolling_window Sample.utcnow
              Sample.engine_one_call Sample.limited ∅ (Sample.seconds 5)))
           2%Z eq_refl))) eq_refl).
Defined.

(** ** The job ledger and the orchestrator *)

Lemma append_empty_r (s : string) : s +:+ "" = s.
Proof.
  induction s as [|c s IH]; [reflexivity|].
  change (String c (s +:+ "") = String c s). f_equal. exact IH.
Qed.

Lemma JobStatus_eqb_eq (a b : JobStatus.t) : JobStatus.eqb a b = true <-> a = b.
Proof. destruct a, b; simpl; split; intros H; congruence. Qed.

Section Orchestrator.

Context {W : Type} (utcnow : W -> datetime).

(** C3.  When the agent of a job is not in the agent registry, [execute_job]
    returns at once a FAILED result whose error holds the agent id, and the
    state it leaves is the state it found: nothing was put in the ledger. *)
Theorem execute_job_agent_not_found (env : Env W) (job : ref) (σ : State W) :
  get_agent σ (AgentJob.agent_id (objects σ job)) = None ->
  exists result error,
    execute_job utcnow env job σ = (Return result, σ)
    /\ AgentResult.status result = JobStatus.FAILED
    /\ AgentResult.error result = Some error
    /\ Str.contains error (AgentJob.agent_id (objects σ job))
    /\ _active_jobs (execute_job utcnow env job σ).2 = _active_jobs σ.
Proof.
  intros Hagent. unfold execute_job. rewrite Hagent.
  eexists _, _. split; [reflexivity|]. split; [reflexivity|].
  split; [reflexivity|]. split; [|reflexivity].
  exists "Agent not found: ", "". rewrite append_empty_r. reflexivity.
Qed.

End Orchestrator.

Lemma execute_job_agent_not_found_witness :
  get_agent (Sample.state "nonexistent" 30)
    (AgentJob.agent_id (objects (Sample.state "nonexistent" 30) 0)) = None
  /\ exists result error,
       execute_job Sample.utcnow (Sample.answering 1 "All good" None) 0
         (Sample.state "nonexistent" 30)
       = (Return result, Sample.state "nonexistent" 30)
       /\ AgentResult.status result = JobStatus.FAILED
       /\ AgentResult.error result = Some error
       /\ Str.contains error "nonexistent".
Proof.
  split; [reflexivity|].
  destruct (execute_job_agent_not_found Sample.utcnow
              (Sample.answering 1 "All good" None) 0
              (Sample.state "nonexistent" 30) eq_refl)
    as (result & error & Hrun & Hstatus & Herror & Hcontains & _).
  exists result, error. repeat split; assumption.
Defined.

Section Ledger.

Context {W : Type} (utcnow : W -> datetime).

(** What [cancel_job] does to a tracked, running job. *)
Lemma cancel_job_running (job_id : string) (job : ref) (σ : State W) :
  _active_jobs σ !! job_id = Some job ->
  AgentJob.status (objects σ job) = JobStatus.RUNNING ->
  cancel_job utcnow job_id σ
  = (true,
     set_active_jobs (delete job_id)
       (update_job job (AgentJob.set_completed_at (utcnow (world σ)))
          (update_job job (AgentJob.set_status JobStatus.CANCELLED) σ))).
Proof.
  intros Hjob Hrun. unfold cancel_job. rewrite Hjob, Hrun. reflexivity.
Qed.

Lemma cancel_job_true_iff (job_id : string) (σ : State W) :
  (cancel_job utcnow job_id σ).1 = true
  <-> exists job, _active_jobs σ !! job_id = Some job
                  /\ AgentJob.status (objects σ job) = JobStatus.RUNNING.
Proof.
  unfold cancel_job.
  destruct (_active_jobs σ !! job_id) as [job|] eqn:Hjob.
  - destruct (JobStatus.eqb (AgentJob.status (objects σ job)) JobStatus.RUNNING)
      eqn:Hrun; simpl.
    + split; [|reflexivity]. intros _. exists job.
      split; [reflexivity|]. apply JobStatus_eqb_eq, Hrun.
    + split; [discriminate|]. intros (job' & Hjob' & Hrun').
      injection Hjob' as <-. apply JobStatus_eqb_eq in Hrun'. congruence.
  - simpl. split; [discriminate|]. intros (job' & Hjob' & _). discriminate.
Qed.

Lemma cancel_job_false_unchanged (job_id : string) (σ : State W) :
  (cancel_job utcnow job_id σ).1 = false -> (cancel_job utcnow job_id σ).2 = σ.
Proof.
  unfold cancel_job.
  destruct (_active_jobs σ !! job_id) as [job|]; [|reflexivity].
  destruct (JobStatus.eqb _ _); [discriminate|reflexivity].
Qed.

(** [cancel_job] only ever removes entries from the ledger. *)
Lemma cancel_job_absent (job_id other : string) (σ : State W) :
  _active_jobs σ !! job_id = None ->
  _active_jobs (cancel_job utcnow other σ).2 !! job_id = None.
Proof.
  intros Habsent. unfold cancel_job.
  destruct (_active_jobs σ !! other) as [job|]; [|exact Habsent].
  destruct (JobStatus.eqb _ _); [|exact Habsent].
  simpl. destruct (decide (other = job_id)) as [->|Hne].
  - apply lookup_delete_eq.
  - rewrite lookup_delete_ne by exact Hne. exact Habsent.
Qed.

Lemma cancel_job_untracked (job_id : string) (σ : State W) :
  _active_jobs σ !! job_id = None -> (cancel_job utcnow job_id σ).1 = false.
Proof. intros Habsent. unfold cancel_job. rewrite Habsent. reflexivity. Qed.

Lemma cancel_job_removes (job_id : string) (σ : State W) :
  (cancel_job utcnow job_id σ).1 = true ->
  _active_jobs (cancel_job utcnow job_id σ).2 !! job_id = None.
Proof.
  intros Htrue. apply cancel_job_true_iff in Htrue as (job & Hjob & Hrun).
  rewrite (cancel_job_running _ _ _ Hjob Hrun). apply lookup_delete_eq.
Qed.

Lemma cancel_calls_cons (job_id : string) (rest : list string) (σ : State W) :
  cancel_calls utcnow (job_id :: rest) σ
  = ((job_id, (cancel_job utcnow job_id σ).1)
       :: (cancel_calls utcnow rest (cancel_job utcnow job_id σ).2).1,
     (cancel_calls utcnow rest (cancel_job utcnow job_id σ).2).2).
Proof.
  simpl. destruct (cancel_job utcnow job_id σ) as [answer σ1]. simpl.
  destruct (cancel_calls utcnow rest σ1) as [answers σ2]. reflexivity.
Qed.

Lemma successes_cons (job_id other : string) (answer : bool) answers :
  successes job_id ((other, answer) :: answers)
  = (if String.eqb other job_id && answer then 1 else 0)
    + successes job_id answers.
Proof.
  unfold successes. simpl. destruct (String.eqb other job_id && answer); reflexivity.
Qed.

(** Once a job id is out of the ledger, no later cancellation of it
    succeeds. *)
Lemma cancel_calls_untracked (job_id : string) (job_ids : list string) (σ : State W) :
  _active_jobs σ !! job_id = None ->
  successes job_id (cancel_calls utcnow job_ids σ).1 = 0.
Proof.
  revert σ. induction job_ids as [|other rest IH]; intros σ Habsent.
  - reflexivity.
  - rewrite cancel_calls_cons. simpl. rewrite successes_cons.
    rewrite (IH _ (cancel_job_absent job_id other σ Habsent)).
    destruct (String.eqb_spec other job_id) as [->|Hne]; [|reflexivity].
    rewrite (cancel_job_untracked _ _ Habsent). reflexivity.
Qed.

Lemma cancel_calls_at_most_once (job_id : string) (job_ids : list string) (σ : State W) :
  successes job_id (cancel_calls utcnow job_ids σ).1 <= 1.
Proof.
  revert σ. induction job_ids as [|other rest IH]; intros σ.
  - simpl. unfold successes. simpl. lia.
  - rewrite cancel_calls_cons. simpl. rewrite successes_cons.
    destruct (String.eqb_spec other job_id) as [->|Hne]; simpl.
    + destruct (cancel_job utcnow job_id σ).1 eqn:Hanswer.
      * rewrite (cancel_calls_untracked _ _ _ (cancel_job_removes _ _ Hanswer)).
        lia.
      * specialize (IH (cancel_job utcnow job_id σ).2). lia.
    + apply IH.
Qed.

End Ledger.

Section Lifecycle.

Context {W : Type} (utcnow : W -> datetime).

Lemma handle_tool_call_returns (env : Env W) job tool_call (σ : State W) :
  exists engine w,
    handle_tool_call utcnow env job tool_call σ
    = (Return tt, meanwhile env (set_engine_world engine w σ)).
Proof.
  unfold handle_tool_call.
  destruct (execute_tool_total utcnow (_tool_engine σ)
              (LLMToolCall.name tool_call) (LLMToolCall.parameters tool_call)
              (tool_call_context (objects σ job) tool_call) (world σ))
    as [result Hresult].
  destruct (execute_tool utcnow _ _ _ _ _) as [[outcome engine] w].
  simpl in Hresult. subst outcome. eauto.
Qed.

Lemma handle_tool_calls_returns (env : Env W) job tool_calls (σ : State W) :
  exists σ', _handle_tool_calls utcnow env job tool_calls σ = (Return tt, σ').
Proof.
  revert σ. induction tool_calls as [|tool_call rest IH]; intros σ; simpl.
  - unfold ret. eauto.
  - unfold bind.
    destruct (handle_tool_call_returns env job tool_call σ) as (engine & w & ->).
    apply IH.
Qed.

(** The block under [try], when the call to the backend raises. *)
Lemma execute_job_try_raise (env : Env W) agent job (σ σ' : State W) e :
  call_backend env agent job σ = (Raise e, σ') ->
  execute_job_try utcnow env agent job σ = (Raise e, σ').
Proof. intros Hcall. unfold execute_job_try, bind. rewrite Hcall. reflexivity. Qed.

(** The block under [try], when the call to the backend returns: the tool
    calls go through the gate, then the result is built and the job marked. *)
Lemma execute_job_try_return (env : Env W) agent job (σ σ' : State W) response :
  call_backend env agent job σ = (Return response, σ') ->
  exists σ'' result,
    execute_job_try utcnow env agent job σ
    = (Return result, finish_job utcnow job JobStatus.COMPLETED σ'')
    /\ (_process_response utcnow agent job response σ'').1 = Return result
    /\ (match ChatResponse.tool_calls response with
        | Some (tool_call :: rest) =>
            _handle_tool_calls utcnow env job (tool_call :: rest) σ'
        | _ => (Return tt, σ')
        end) = (Return tt, σ'').
Proof.
  intros Hcall. unfold execute_job_try, bind at 1. rewrite Hcall.
  assert (exists σ'', (match ChatResponse.tool_calls response with
                       | Some (tool_call :: rest) =>
                           _handle_tool_calls utcnow env job (tool_call :: rest)
                       | _ => ret tt
                       end) σ' = (Return tt, σ'')) as [σ'' Htools].
  { destruct (ChatResponse.tool_calls response) as [[|tool_call rest]|];
      [unfold ret; eauto|apply handle_tool_calls_returns|unfold ret; eauto]. }
  exists σ''. eexists. unfold bind at 1. rewrite Htools.
  split; [reflexivity|]. split; [reflexivity|].
  destruct (ChatResponse.tool_calls response) as [[|tool_call rest]|];
    exact Htools.
Qed.

Lemma execute_job_found (env : Env W) job (σ : State W) agent :
  get_agent σ (AgentJob.agent_id (objects σ job)) = Some agent ->
  execute_job utcnow env job σ
  = try_finally
      (try_except (execute_job_try utcnow env agent job)
         (execute_job_except utcnow job))
      (execute_job_finally job) (execute_job_start utcnow job σ).
Proof. intros Hagent. unfold execute_job. rewrite Hagent. reflexivity. Qed.

(** [execute_job] returns a result on every path. *)
Lemma execute_job_total (env : Env W) job (σ : State W) :
  exists result, (execute_job utcnow env job σ).1 = Return result.
Proof.
  unfold execute_job.
  destruct (get_agent σ (AgentJob.agent_id (objects σ job))) as [agent|];
    [|simpl; eauto].
  unfold try_finally, try_except.
  destruct (call_backend env agent job (execute_job_start utcnow job σ))
    as [[e|response] σ1] eqn:Hcall.
  - rewrite (execute_job_try_raise _ _ _ _ _ _ Hcall). simpl. eauto.
  - destruct (execute_job_try_return _ _ _ _ _ _ Hcall)
      as (σ2 & result & -> & _). simpl. eauto.
Qed.

(** *** The [job_id] of a job object is not assigned by the runtime *)

Lemma update_job_job_id (job other : ref) f (σ : State W) :
  (forall j, AgentJob.job_id (f j) = AgentJob.job_id j) ->
  AgentJob.job_id (objects (update_job other f σ) job)
  = AgentJob.job_id (objects σ job).
Proof.
  intros Hf. unfold update_job. simpl.
  destruct (decide (other = job)) as [->|Hne].
  - rewrite fn_lookup_insert. apply Hf.
  - rewrite fn_lookup_insert_ne by exact Hne. reflexivity.
Qed.

Lemma finish_job_job_id (job other : ref) st (σ : State W) :
  AgentJob.job_id (objects (finish_job utcnow other st σ) job)
  = AgentJob.job_id (objects σ job).
Proof.
  unfold finish_job. rewrite !update_job_job_id; reflexivity.
Qed.

Lemma execute_job_start_job_id (job other : ref) (σ : State W) :
  AgentJob.job_id (objects (execute_job_start utcnow other σ) job)
  = AgentJob.job_id (objects σ job).
Proof.
  unfold execute_job_start. rewrite !update_job_job_id; reflexivity.
Qed.

Lemma handle_tool_calls_job_id (env : Env W) job tool_calls (σ σ' : State W) :
  keeps_job_id env job ->
  _handle_tool_calls utcnow env job tool_calls σ = (Return tt, σ') ->
  AgentJob.job_id (objects σ' job) = AgentJob.job_id (objects σ job).
Proof.
  intros [_ Hmeanwhile]. revert σ.
  induction tool_calls as [|tool_call rest IH]; intros σ; simpl.
  - unfold ret. intros [= <-]. reflexivity.
  - unfold bind.
    destruct (handle_tool_call_returns env job tool_call σ) as (engine & w & ->).
    intros Hrest. rewrite (IH _ Hrest), Hmeanwhile. reflexivity.
Qed.

(** From the first statement of [execute_job] to its last the job object
    keeps its [job_id]. *)
Lemma execute_job_job_id (env : Env W) job (σ : State W) :
  keeps_job_id env job ->
  AgentJob.job_id (objects (execute_job utcnow env job σ).2 job)
  = AgentJob.job_id (objects σ job).
Proof.
  intros Hkeeps. unfold execute_job.
  destruct (get_agent σ (AgentJob.agent_id (objects σ job))) as [agent|];
    [|reflexivity].
  unfold try_finally, try_except.
  destruct (call_backend env agent job (execute_job_start utcnow job σ))
    as [[e|response] σ1] eqn:Hcall.
  - rewrite (execute_job_try_raise _ _ _ _ _ _ Hcall).
    change (AgentJob.job_id
              (objects (finish_job utcnow job JobStatus.FAILED σ1) job)
            = AgentJob.job_id (objects σ job)).
    rewrite finish_job_job_id.
    unfold call_backend in Hcall. destruct Hkeeps as [Hchat _].
    specialize (Hchat (_prepare_messages agent
                         (objects (execute_job_start utcnow job σ) job))
                  (llm_tools_for (execute_job_start utcnow job σ) job)
                  (AgentConfig.temperature (Agent.config agent))
                  (AgentConfig.max_tokens (Agent.config agent))
                  (execute_job_start utcnow job σ)).
    rewrite Hcall in Hchat. simpl in Hchat.
    rewrite Hchat. apply execute_job_start_job_id.
  - destruct (execute_job_try_return _ _ _ _ _ _ Hcall)
      as (σ2 & result & -> & _ & Htools).
    change (AgentJob.job_id
              (objects (finish_job utcnow job JobStatus.COMPLETED σ2) job)
            = AgentJob.job_id (objects σ job)).
    rewrite finish_job_job_id.
    assert (AgentJob.job_id (objects σ2 job) = AgentJob.job_id (objects σ1 job))
      as ->.
    { destruct (ChatResponse.tool_calls response) as [[|tool_call rest]|].
      - injection Htools as <-. reflexivity.
      - exact (handle_tool_calls_job_id _ _ _ _ _ Hkeeps Htools).
      - injection Htools as <-. reflexivity. }
    unfold call_backend in Hcall. destruct Hkeeps as [Hchat _].
    specialize (Hchat (_prepare_messages agent
                         (objects (execute_job_start utcnow job σ) job))
                  (llm_tools_for (execute_job_start utcnow job σ) job)
                  (AgentConfig.temperature (Agent.config agent))
                  (AgentConfig.max_tokens (Agent.config agent))
                  (execute_job_start utcnow job σ)).
    rewrite Hcall in Hchat. simpl in Hchat.
    rewrite Hchat. apply execute_job_start_job_id.
Qed.

(** The last statement of [execute_job], under [finally], pops the id the
    job object holds at that point. *)
Lemma execute_job_pops (env : Env W) job (σ : State W) agent :
  get_agent σ (AgentJob.agent_id (objects σ job)) = Some agent ->
  _active_jobs (execute_job utcnow env job σ).2
    !! AgentJob.job_id (objects (execute_job utcnow env job σ).2 job) = None.
Proof.
  intros Hagent. rewrite (execute_job_found _ _ _ _ Hagent).
  unfold try_finally.
  destruct (try_except _ _ _) as [outcome σ1]. simpl.
  apply lookup_delete_eq.
Qed.

End Lifecycle.

Section Claims.

Context {W : Type} (utcnow : W -> datetime).

(** C4.  [cancel_job] answers true exactly when the ledger holds an entry
    for the id whose job is RUNNING; it then marks the job CANCELLED, stamps
    [completed_at] with the current time and removes the entry, and
    otherwise changes nothing.  So in any sequence of calls at most one call
    for a given id answers true, a second call after a success answers false,
    and so does a call after [execute_job] has returned for the job. *)
Theorem cancel_job_at_most_once (job_id : string) (σ : State W) :
  ((cancel_job utcnow job_id σ).1 = true
   <-> exists job, _active_jobs σ !! job_id = Some job
                   /\ AgentJob.status (objects σ job) = JobStatus.RUNNING)
  /\ (forall job,
        _active_jobs σ !! job_id = Some job ->
        AgentJob.status (objects σ job) = JobStatus.RUNNING ->
        let σ' := (cancel_job utcnow job_id σ).2 in
        AgentJob.status (objects σ' job) = JobStatus.CANCELLED
        /\ AgentJob.completed_at (objects σ' job) = Some (utcnow (world σ))
        /\ _active_jobs σ' = delete job_id (_active_jobs σ))
  /\ ((cancel_job utcnow job_id σ).1 = false ->
      (cancel_job utcnow job_id σ).2 = σ)
  /\ (forall job_ids,
        successes job_id (cancel_calls utcnow job_ids σ).1 <= 1)
  /\ ((cancel_job utcnow job_id σ).1 = true ->
      (cancel_job utcnow job_id (cancel_job utcnow job_id σ).2).1 = false)
  /\ (forall env job agent,
        get_agent σ (AgentJob.agent_id (objects σ job)) = Some agent ->
        AgentJob.job_id (objects σ job) = job_id ->
        keeps_job_id env job ->
        (cancel_job utcnow job_id (execute_job utcnow env job σ).2).1 = false).
Proof.
  split; [apply cancel_job_true_iff|]. split; [|split; [|split; [|split]]].
  - intros job Hjob Hrun σ'. subst σ'.
    rewrite (cancel_job_running _ _ _ _ Hjob Hrun). simpl.
    rewrite !fn_lookup_insert. repeat split.
  - apply cancel_job_false_unchanged.
  - intros job_ids. apply cancel_calls_at_most_once.
  - intros Htrue. apply cancel_job_untracked, cancel_job_removes, Htrue.
  - intros env job agent Hagent Hid Hkeeps. apply cancel_job_untracked.
    rewrite <- Hid, <- (execute_job_job_id utcnow env job σ Hkeeps).
    exact (execute_job_pops utcnow env job σ agent Hagent).
Qed.




End Claims.

Lemma cancel_job_at_most_once_witness :
  (cancel_job Sample.utcnow "job-1" Sample.running).1 = true
  /\ (cancel_job Sample.utcnow "job-1"
        (cancel_job Sample.utcnow "job-1" Sample.running).2).1 = false.
Proof.
  split; [reflexivity|].
  exact (proj1 (proj2 (proj2 (proj2 (proj2
           (cancel_job_at_most_once Sample.utcnow "job-1" Sample.running)))))
           eq_refl).
Defined.





(** C5 does not hold of the source.  "job-1" is started and suspended on the
    backend; 2 seconds later another task cancels it: it is CANCELLED, a
    terminal status, and stamped.  When the backend answers 3 seconds after
    that, the continuation of [execute_job] sets the status to COMPLETED and
    stamps [completed_at] a second time. *)
Theorem execute_job_overwrites_cancelled :
  let σ := Sample.state "helper" 30 in
  let suspended := Sample.advance (Sample.seconds 2)
                     (execute_job_start Sample.utcnow 0 σ) in
  let cancelled := cancel_job Sample.utcnow "job-1" suspended in
  let run := execute_job Sample.utcnow (Sample.cancelled_meanwhile "All good") 0 σ in
  AgentJob.status (objects suspended 0) = JobStatus.RUNNING
  /\ cancelled.1 = true
  /\ AgentJob.status (objects cancelled.2 0) = JobStatus.CANCELLED
  /\ JobStatus.terminal (AgentJob.status (objects cancelled.2 0)) = true
  /\ AgentJob.completed_at (objects cancelled.2 0) = Some (Sample.seconds 2)
  /\ AgentJob.status (objects run.2 0) = JobStatus.COMPLETED
  /\ AgentJob.completed_at (objects run.2 0) = Some (Sample.seconds 5)
  /\ exists result,
       run.1 = Return result
       /\ AgentResult.status result = JobStatus.COMPLETED.
Proof.
  do 7 (split; [vm_compute; reflexivity|]).
  eexists. split; [vm_compute; reflexivity|]. reflexivity.
Qed.


(** * Further properties of the code *)

(** ** The tool registry *)

Section Registry.

Context {W : Type}.

(** X1.  [register] of a tool whose id is free succeeds, the tool is then
    found under the id of its definition, and every other id resolves as
    before; [register] of a tool whose id is taken raises and the first tool
    stays. *)
Theorem register_then_get (self : ToolRegistry.t W) (tool : Tool W) :
  let tool_id := ToolDefinition.id (definition tool) in
  (ToolRegistry.get self tool_id = None ->
   exists self',
     ToolRegistry.register self tool = Return self'
     /\ ToolRegistry.get self' tool_id = Some tool
     /\ (forall other, other <> tool_id ->
           ToolRegistry.get self' other = ToolRegistry.get self other))
  /\ (forall first,
        ToolRegistry.get self tool_id = Some first ->
        ToolRegistry.register self tool
        = Raise ("Tool already registered: " +:+ tool_id)).
Proof.
  intros tool_id. unfold ToolRegistry.register, ToolRegistry.get.
  fold tool_id. split.
  - intros ->. eexists. split; [reflexivity|]. simpl. split.
    + apply lookup_insert_eq.
    + intros other Hne. apply lookup_insert_ne. congruence.
  - intros first ->. reflexivity.
Qed.

(** X2.  [deregister] answers true exactly when the id is registered; after
    it the id no longer resolves and the other ids resolve as before; a
    second [deregister] answers false and changes nothing; and the tool can
    then be registered again. *)
Theorem deregister_then_get (self : ToolRegistry.t W) (tool_id : string) :
  let answer := (ToolRegistry.deregister self tool_id).1 in
  let self' := (ToolRegistry.deregister self tool_id).2 in
  (answer = true <-> is_Some (ToolRegistry.get self tool_id))
  /\ ToolRegistry.get self' tool_id = None
  /\ (forall other, other <> tool_id ->
        ToolRegistry.get self' other = ToolRegistry.get self other)
  /\ ToolRegistry.deregister self' tool_id = (false, self')
  /\ (forall tool,
        ToolDefinition.id (definition tool) = tool_id ->
        exists self'', ToolRegistry.register self' tool = Return self''
                       /\ ToolRegistry.get self'' tool_id = Some tool).
Proof.
  intros answer self'. subst answer self'.
  unfold ToolRegistry.deregister, ToolRegistry.get.
  destruct (ToolRegistry._tools self !! tool_id) as [tool|] eqn:Hget; simpl.
  - split; [split; eauto|]. split; [apply lookup_delete_eq|]. split.
    + intros other Hne. apply lookup_delete_ne. congruence.
    + rewrite lookup_delete_eq. split; [reflexivity|].
      intros tool' Hid. unfold ToolRegistry.register. rewrite Hid. simpl.
      rewrite lookup_delete_eq. eexists. split; [reflexivity|].
      simpl. apply lookup_insert_eq.
  - split; [split; [discriminate|intros [? ?]; discriminate]|].
    split; [exact Hget|]. split; [reflexivity|].
    rewrite Hget. split; [reflexivity|].
    intros tool' Hid. unfold ToolRegistry.register. rewrite Hid, Hget.
    eexists. split; [reflexivity|]. simpl. apply lookup_insert_eq.
Qed.

(** X3.  The registry only ever holds a tool under the id of its own
    definition: the empty registry does, and [register] and [deregister]
    keep it so. *)
Theorem registry_well_keyed (self : ToolRegistry.t W) :
  well_keyed (@ToolRegistry.empty W)
  /\ (well_keyed self ->
      (forall tool self',
         ToolRegistry.register self tool = Return self' -> well_keyed self')
      /\ (forall tool_id,
            well_keyed (ToolRegistry.deregister self tool_id).2)).
Proof.
  split.
  - intros tool_id tool. unfold ToolRegistry.get, ToolRegistry.empty. simpl.
    rewrite lookup_empty. discriminate.
  - intros Hkeyed. split.
    + intros tool self' Hregister tool_id found. revert Hregister.
      unfold ToolRegistry.register.
      destruct (ToolRegistry._tools self !! ToolDefinition.id (definition tool));
        [discriminate|].
      intros [= <-]. unfold ToolRegistry.get. simpl.
      destruct (decide (ToolDefinition.id (definition tool) = tool_id))
        as [<-|Hne].
      * rewrite lookup_insert_eq. intros [= <-]. reflexivity.
      * rewrite lookup_insert_ne by exact Hne. apply Hkeyed.
    + intros tool_id other found. unfold ToolRegistry.deregister.
      destruct (ToolRegistry._tools self !! tool_id) eqn:Hget; simpl;
        [|apply Hkeyed].
      unfold ToolRegistry.get. simpl.
      destruct (decide (tool_id = other)) as [<-|Hne].
      * rewrite lookup_delete_eq. discriminate.
      * rewrite lookup_delete_ne by exact Hne. apply Hkeyed.
Qed.

End Registry.

Lemma register_then_get_witness :
  ToolRegistry.get (@ToolRegistry.empty Z) "limited" = None
  /\ exists self',
       ToolRegistry.register ToolRegistry.empty Sample.limited = Return self'
       /\ ToolRegistry.get self' "limited" = Some Sample.limited.
Proof.
  split; [reflexivity|].
  destruct (proj1 (register_then_get ToolRegistry.empty Sample.limited) eq_refl)
    as (self' & Hregister & Hget & _).
  exists self'. split; assumption.
Defined.

Lemma deregister_then_get_witness :
  ToolDefinition.id (definition Sample.guarded) = "guarded"
  /\ exists self'',
       ToolRegistry.register
         (ToolRegistry.deregister Sample.registry "guarded").2 Sample.guarded
       = Return self''
       /\ ToolRegistry.get self'' "guarded" = Some Sample.guarded.
Proof.
  split; [reflexivity|].
  exact (proj2 (proj2 (proj2 (proj2
           (deregister_then_get Sample.registry "guarded"))))
           Sample.guarded eq_refl).
Defined.

Lemma registry_well_keyed_witness :
  well_keyed (@ToolRegistry.empty Z)
  /\ ToolRegistry.register ToolRegistry.empty Sample.broken
     = Return {| ToolRegistry._tools := {["broken" := Sample.broken]} |}
  /\ well_keyed {| ToolRegistry._tools := {["broken" := Sample.broken]} |}.
Proof.
  pose proof (registry_well_keyed (@ToolRegistry.empty Z)) as [Hempty Hkeep].
  split; [exact Hempty|]. split; [reflexivity|].
  exact (proj1 (Hkeep Hempty) Sample.broken _ eq_refl).
Defined.

(** ** The engine beyond one call *)

Section Engine.

Context {W : Type} (utcnow : W -> datetime).

(** X4.  [get_tool_definitions] hands back, in the order asked, the
    definitions of the ids that resolve and skips the others without a word:
    a definition is returned exactly when one of the ids resolves to a tool
    with it, there are never more definitions than ids, and in a registry
    filled by [register] every definition returned bears one of the ids
    asked. *)
Theorem get_tool_definitions_resolves (self : ToolEngine W) (tool_ids : list string) :
  (forall defn,
     In defn (get_tool_definitions self tool_ids)
     <-> exists tool_id tool,
           In tool_id tool_ids
           /\ ToolRegistry.get (_registry self) tool_id = Some tool
           /\ defn = definition tool)
  /\ length (get_tool_definitions self tool_ids) <= length tool_ids
  /\ (forall more,
        get_tool_definitions self (tool_ids ++ more)
        = get_tool_definitions self tool_ids ++ get_tool_definitions self more)
  /\ (well_keyed (_registry self) ->
      forall defn,
        In defn (get_tool_definitions self tool_ids) ->
        In (ToolDefinition.id defn) tool_ids).
Proof.
  assert (Hin : forall ids defn,
            In defn (get_tool_definitions self ids)
            <-> exists tool_id tool,
                  In tool_id ids
                  /\ ToolRegistry.get (_registry self) tool_id = Some tool
                  /\ defn = definition tool).
  { induction ids as [|tool_id rest IH]; intros defn; simpl.
    - split; [intros []|intros (? & ? & [] & _)].
    - unfold ToolRegistry.get_definition, ToolRegistry.get in *.
      destruct (ToolRegistry._tools (_registry self) !! tool_id) as [tool|] eqn:Hget.
      + simpl. rewrite IH. split.
        * intros [<-|(id' & tool' & Hid & Hget' & ->)]; eauto 6.
        * intros (id' & tool' & [<-|Hid] & Hget' & ->).
          -- left. congruence.
          -- right. eauto.
      + rewrite IH. split.
        * intros (id' & tool' & Hid & Hget' & ->). eauto 6.
        * intros (id' & tool' & [<-|Hid] & Hget' & ->); [congruence|eauto]. }
  split; [apply Hin|]. split; [|split].
  - induction tool_ids as [|tool_id rest IH]; simpl; [lia|].
    destruct (ToolRegistry.get_definition (_registry self) tool_id); simpl; lia.
  - intros more. induction tool_ids as [|tool_id rest IH]; simpl; [reflexivity|].
    destruct (ToolRegistry.get_definition (_registry self) tool_id);
      rewrite IH; reflexivity.
  - intros Hkeyed defn Hdefn. apply Hin in Hdefn as (tool_id & tool & Hid & Hget & ->).
    rewrite (Hkeyed _ _ Hget). exact Hid.
Qed.





End Engine.

(** ** What the rate window guarantees *)

Section RateGuarantee.

Context {W : Type} (utcnow : W -> datetime).

Lemma later_than_app (c : Z) (l l' : list datetime) :
  later_than c (l ++ l') = later_than c l ++ later_than c l'.
Proof. unfold later_than. apply List.filter_app. Qed.

Lemma later_than_later (c c' : Z) (l : list datetime) :
  (c <= c')%Z -> later_than c' (later_than c l) = later_than c' l.
Proof.
  intros Hle. unfold later_than. induction l as [|ts l IH]; simpl; [reflexivity|].
  destruct (Z.ltb_spec c ts) as [Hlt|Hge]; simpl.
  - rewrite IH. reflexivity.
  - rewrite IH. destruct (Z.ltb_spec c' ts); [lia|reflexivity].
Qed.

(** One check: what it leaves in the window and when it allows. *)
Lemma check_rate_limit_step (self : ToolEngine W) (tool : Tool W) limit w :
  ToolDefinition.rate_limit (definition tool) = Some limit ->
  let answer := _check_rate_limit utcnow self tool ∅ w in
  let kept := later_than (cutoff_at utcnow tool w) (window_log self tool) in
  window_log answer.2 tool = kept ++ (if answer.1 then [utcnow w] else [])
  /\ (answer.1 = true <-> (Z.of_nat (length kept) < limit)%Z).
Proof.
  intros Hlimit answer kept. subst answer.
  unfold _check_rate_limit. rewrite Hlimit.
  unfold window_log, cutoff_at, later_than in *. fold kept.
  rewrite counter_insert_eq. unfold datetime in *.
  destruct (limit <=? Z.of_nat (length kept))%Z eqn:Hfull; simpl.
  - apply Z.leb_le in Hfull. rewrite counter_insert_eq, app_nil_r.
    split; [reflexivity|]. split; [discriminate|lia].
  - apply Z.leb_gt in Hfull. rewrite counter_insert_eq.
    split; [reflexivity|]. split; [intros _; exact Hfull|reflexivity].
Qed.

Lemma rate_checks_cons (self : ToolEngine W) (tool : Tool W) w ws :
  rate_checks utcnow self tool (w :: ws)
  = ((_check_rate_limit utcnow self tool ∅ w).1
       :: (rate_checks utcnow (_check_rate_limit utcnow self tool ∅ w).2 tool ws).1,
     (rate_checks utcnow (_check_rate_limit utcnow self tool ∅ w).2 tool ws).2).
Proof.
  simpl. destruct (_check_rate_limit utcnow self tool ∅ w) as [answer self1].
  simpl. destruct (rate_checks utcnow self1 tool ws) as [answers self2].
  reflexivity.
Qed.

Lemma rate_checks_app (self : ToolEngine W) (tool : Tool W) ws ws' :
  rate_checks utcnow self tool (ws ++ ws')
  = ((rate_checks utcnow self tool ws).1
       ++ (rate_checks utcnow (rate_checks utcnow self tool ws).2 tool ws').1,
     (rate_checks utcnow (rate_checks utcnow self tool ws).2 tool ws').2).
Proof.
  revert self. induction ws as [|w ws IH]; intros self.
  - simpl. destruct (rate_checks utcnow self tool ws'). reflexivity.
  - rewrite <- app_comm_cons, !rate_checks_cons, IH. reflexivity.
Qed.

Lemma rate_checks_length (self : ToolEngine W) (tool : Tool W) ws :
  length (rate_checks utcnow self tool ws).1 = length ws.
Proof.
  revert self. induction ws as [|w ws IH]; intros self; [reflexivity|].
  rewrite rate_checks_cons. simpl. rewrite IH. reflexivity.
Qed.

Lemma allowed_times_app ws ws' (answers answers' : list bool) :
  length answers = length ws ->
  allowed_times utcnow (ws ++ ws') (answers ++ answers')
  = allowed_times utcnow ws answers ++ allowed_times utcnow ws' answers'.
Proof.
  revert answers. induction ws as [|w ws IH]; intros [|[] answers] Hlength;
    try discriminate; simpl in *.
  - reflexivity.
  - rewrite IH by congruence. reflexivity.
  - apply IH. congruence.
Qed.

(** Along a clock that does not run backwards, what a cutoff at or after
    every cutoff so far keeps of the window is what it keeps of the
    timestamps of all the calls allowed so far. *)
Lemma rate_checks_window (tool : Tool W) limit ws :
  ToolDefinition.rate_limit (definition tool) = Some limit ->
  clock_monotone utcnow ws ->
  forall (self : ToolEngine W) (history : list datetime) (c0 : Z),
    (forall c, (c0 <= c)%Z ->
               later_than c (window_log self tool) = later_than c history) ->
    (forall w, In w ws -> (c0 <= cutoff_at utcnow tool w)%Z) ->
    forall c,
      (c0 <= c)%Z ->
      (forall w, In w ws -> (cutoff_at utcnow tool w <= c)%Z) ->
      later_than c (window_log (rate_checks utcnow self tool ws).2 tool)
      = later_than c
          (history ++ allowed_times utcnow ws (rate_checks utcnow self tool ws).1).
Proof.
  intros Hlimit. induction ws as [|w ws IH];
    intros Hmono self history c0 Hinv Hlow c Hc Hhigh.
  - simpl. rewrite app_nil_r. apply Hinv, Hc.
  - destruct Hmono as [Hfirst Hmono]. rewrite rate_checks_cons. simpl.
    destruct (check_rate_limit_step self tool limit w Hlimit) as [Hlog _].
    set (answer := _check_rate_limit utcnow self tool ∅ w) in *.
    assert (Hw : (c0 <= cutoff_at utcnow tool w)%Z) by (apply Hlow; left; reflexivity).
    assert (Hstep : forall c', (cutoff_at utcnow tool w <= c')%Z ->
              later_than c' (window_log answer.2 tool)
              = later_than c' (history ++ (if answer.1 then [utcnow w] else []))).
    { intros c' Hc'. rewrite Hlog, !later_than_app.
      rewrite (later_than_later _ _ _ Hc'), Hinv by lia. reflexivity. }
    assert (Hrest : forall w', In w' ws ->
              (cutoff_at utcnow tool w <= cutoff_at utcnow tool w')%Z).
    { intros w' Hw'. unfold cutoff_at. specialize (Hfirst w' Hw'). lia. }
    rewrite (IH Hmono answer.2 _ (cutoff_at utcnow tool w) Hstep Hrest c).
    + destruct answer.1; simpl; rewrite <- ?app_assoc; reflexivity.
    + apply Hhigh. left. reflexivity.
    + intros w' Hw'. apply Hhigh. right. exact Hw'.
Qed.

(** X6.  Starting from an empty window and along a clock that does not run
    backwards, whenever a check allows a call, the calls allowed so far whose
    time lies within the window before it, this call included, are at most
    [rate_limit] many. *)
Theorem rate_limit_bounds_allowed_calls (self : ToolEngine W) (tool : Tool W)
    (limit : Z) (ws : list W) (w : W) :
  ToolDefinition.rate_limit (definition tool) = Some limit ->
  window_log self tool = [] ->
  clock_monotone utcnow (ws ++ [w]) ->
  let answers := (rate_checks utcnow self tool (ws ++ [w])).1 in
  List.last answers false = true ->
  (Z.of_nat (length (later_than (cutoff_at utcnow tool w)
                       (allowed_times utcnow (ws ++ [w]) answers)))
   <= limit)%Z.
Proof.
  intros Hlimit Hempty Hmono answers Hallowed. subst answers.
  rewrite rate_checks_app in Hallowed |- *. cbn [fst snd] in Hallowed |- *.
  set (before := rate_checks utcnow self tool ws) in *.
  rewrite rate_checks_cons in Hallowed |- *. cbn [fst snd rate_checks] in Hallowed |- *.
  rewrite List.last_last in Hallowed.
  rewrite allowed_times_app by apply rate_checks_length.
  rewrite later_than_app. simpl. rewrite Hallowed. simpl.
  destruct (check_rate_limit_step before.2 tool limit w Hlimit) as [_ Hiff].
  apply Hiff in Hallowed.
  assert (Hsplit : clock_monotone utcnow ws
                   /\ forall w', In w' ws -> (utcnow w' <= utcnow w)%Z).
  { clear -Hmono. induction ws as [|v ws IH]; simpl in *; [tauto|].
    destruct Hmono as [Hfirst Hmono]. destruct (IH Hmono) as [Hws Hlast].
    split; [split; [|exact Hws]|].
    - intros w' Hw'. apply Hfirst, in_or_app. left. exact Hw'.
    - intros w' [<-|Hw']; [|apply Hlast, Hw'].
      apply Hfirst, in_or_app. right. left. reflexivity. }
  destruct Hsplit as [Hws Hlast].
  assert (Hkept : later_than (cutoff_at utcnow tool w) (window_log before.2 tool)
                  = later_than (cutoff_at utcnow tool w)
                      (allowed_times utcnow ws before.1)).
  { subst before.
    destruct ws as [|v ws'] eqn:Hws'.
    - simpl. rewrite Hempty. reflexivity.
    - rewrite <- Hws' in *.
      apply (rate_checks_window tool limit ws Hlimit Hws self []
               (cutoff_at utcnow tool v)).
      + intros c _. rewrite Hempty. reflexivity.
      + intros w' Hw'. subst ws. destruct Hw' as [<-|Hw']; [lia|].
        destruct Hws as [Hfirst _]. unfold cutoff_at.
        specialize (Hfirst w' Hw'). lia.
      + unfold cutoff_at. specialize (Hlast v). subst ws.
        specialize (Hlast (or_introl eq_refl)). lia.
      + intros w' Hw'. unfold cutoff_at. specialize (Hlast w' Hw'). lia. }
  rewrite <- Hkept. rewrite length_app.
  destruct (cutoff_at utcnow tool w <? utcnow w)%Z; simpl; lia.
Qed.

End RateGuarantee.

Lemma rate_limit_bounds_allowed_calls_witness :
  ToolDefinition.rate_limit (definition Sample.limited) = Some 2%Z
  /\ window_log Sample.engine Sample.limited = []
  /\ clock_monotone Sample.utcnow ([0%Z] ++ [Sample.seconds 5])
  /\ List.last (rate_checks Sample.utcnow Sample.engine Sample.limited
                  ([0%Z] ++ [Sample.seconds 5])).1 false = true
  /\ (Z.of_nat
        (length
           (later_than (cutoff_at Sample.utcnow Sample.limited (Sample.seconds 5))
              (allowed_times Sample.utcnow ([0%Z] ++ [Sample.seconds 5])
                 (rate_checks Sample.utcnow Sample.engine Sample.limited
                    ([0%Z] ++ [Sample.seconds 5])).1)))
      <= 2)%Z.
Proof.
  assert (Hmono : clock_monotone Sample.utcnow ([0%Z] ++ [Sample.seconds 5])).
  { simpl. split; [|split; [intros w' []|exact I]].
    intros w' [<-|[]]. vm_compute. discriminate. }
  split; [reflexivity|]. split; [reflexivity|]. split; [exact Hmono|].
  split; [reflexivity|].
  exact (rate_limit_bounds_allowed_calls Sample.utcnow Sample.engine
           Sample.limited 2%Z [0%Z] (Sample.seconds 5)
           eq_refl eq_refl Hmono eq_refl).
Defined.

Section GateEffects.

Context {W : Type} (utcnow : W -> datetime).

Lemma check_rate_limit_frame (self : ToolEngine W) (tool : Tool W) context w :
  _registry (_check_rate_limit utcnow self tool context w).2 = _registry self
  /\ forall other,
       other <> ToolDefinition.id (definition tool) ->
       _rate_limit_counters (_check_rate_limit utcnow self tool context w).2 !! other
       = _rate_limit_counters self !! other.
Proof.
  unfold _check_rate_limit.
  destruct (ToolDefinition.rate_limit (definition tool)) as [limit|];
    [|split; reflexivity].
  destruct (limit <=? _)%Z; simpl; (split; [reflexivity|]); intros other Hne.
  - rewrite lookup_insert_ne by congruence. reflexivity.
  - rewrite !lookup_insert_ne by congruence. reflexivity.
Qed.

(** X7.  A call refused for its parameters has already been counted: when the
    authorization passes and the window has room, a call with invalid
    parameters comes back FAILED with "Invalid parameters", the tool is not
    run, and the time of the call is in the rate window all the same. *)
Theorem invalid_parameters_spend_rate_budget (self : ToolEngine W) tool_id
    (tool : Tool W) limit parameters context w :
  ToolRegistry.get (_registry self) tool_id = Some tool ->
  _check_permissions tool context = true ->
  ToolDefinition.rate_limit (definition tool) = Some limit ->
  (Z.of_nat (length (later_than (cutoff_at utcnow tool w) (window_log self tool)))
   < limit)%Z ->
  validate_parameters tool parameters = false ->
  exists self',
    execute_tool utcnow self tool_id parameters context w
    = (Return (refusal utcnow tool_id context ToolStatus.FAILED
                 "Invalid parameters" w), self', w)
    /\ window_log self' tool
       = later_than (cutoff_at utcnow tool w) (window_log self tool) ++ [utcnow w].
Proof.
  intros Hget Hperm Hlimit Hroom Hvalid.
  assert (Hcontext : _check_rate_limit utcnow self tool context w
                     = _check_rate_limit utcnow self tool ∅ w) by reflexivity.
  destruct (check_rate_limit_step utcnow self tool limit w Hlimit) as [Hlog Hiff].
  apply Hiff in Hroom. rewrite Hroom in Hlog.
  exists (_check_rate_limit utcnow self tool ∅ w).2. split; [|exact Hlog].
  unfold execute_tool. rewrite Hget, Hperm, Hcontext. simpl.
  destruct (_check_rate_limit utcnow self tool ∅ w) as [allowed self'].
  simpl in Hroom. subst allowed. simpl. rewrite Hvalid. reflexivity.
Qed.

(** X8.  A call through the gate never changes the registry, and in a
    registry filled by [register] it can only touch the rate window of the
    tool it names: the windows of all other tools are as before. *)
Theorem execute_tool_touches_one_window (self : ToolEngine W) tool_id
    parameters context w :
  _registry (execute_tool utcnow self tool_id parameters context w).1.2
  = _registry self
  /\ (well_keyed (_registry self) ->
      forall other,
        other <> tool_id ->
        _rate_limit_counters
          (execute_tool utcnow self tool_id parameters context w).1.2 !! other
        = _rate_limit_counters self !! other).
Proof.
  unfold execute_tool.
  destruct (ToolRegistry.get (_registry self) tool_id) as [tool|] eqn:Hget;
    [|split; reflexivity].
  destruct (negb (_check_permissions tool context)); [split; reflexivity|].
  destruct (check_rate_limit_frame self tool context w) as [Hregistry Hothers].
  destruct (_check_rate_limit utcnow self tool context w) as [allowed self'].
  simpl in Hregistry, Hothers.
  assert (Hframe : well_keyed (_registry self) ->
            forall other, other <> tool_id ->
              _rate_limit_counters self' !! other
              = _rate_limit_counters self !! other).
  { intros Hkeyed other Hne. apply Hothers. rewrite (Hkeyed _ _ Hget). exact Hne. }
  destruct (negb allowed); [split; assumption|].
  destruct (negb (validate_parameters tool parameters)); [split; assumption|].
  destruct (execute tool parameters context w) as [[e|result] w'];
    split; assumption.
Qed.

End GateEffects.

Lemma invalid_parameters_spend_rate_budget_witness :
  ToolRegistry.get (_registry Sample.engine) "limited" = Some Sample.limited
  /\ _check_permissions Sample.limited ∅ = true
  /\ validate_parameters Sample.limited ∅ = false
  /\ exists self',
       execute_tool Sample.utcnow Sample.engine "limited" ∅ ∅ 7%Z
       = (Return (refusal Sample.utcnow "limited" ∅ ToolStatus.FAILED
                    "Invalid parameters" 7%Z), self', 7%Z)
       /\ window_log self' Sample.limited = [7%Z].
Proof.
  do 3 (split; [reflexivity|]).
  exact (invalid_parameters_spend_rate_budget Sample.utcnow Sample.engine
           "limited" Sample.limited 2%Z ∅ ∅ 7%Z
           eq_refl eq_refl eq_refl eq_refl eq_refl).
Defined.

Lemma sample_registry_well_keyed : well_keyed Sample.registry.
Proof.
  intros tool_id tool. unfold ToolRegistry.get, Sample.registry. simpl.
  rewrite !lookup_insert, lookup_empty.
  repeat case_decide; subst; intros [= <-]; reflexivity.
Qed.

Lemma execute_tool_touches_one_window_witness :
  well_keyed (_registry Sample.engine_exhausted)
  /\ _rate_limit_counters
       (execute_tool Sample.utcnow Sample.engine_exhausted "limited"
          Sample.value_parameters ∅ 7%Z).1.2 !! "guarded"
     = _rate_limit_counters Sample.engine_exhausted !! "guarded".
Proof.
  split; [exact sample_registry_well_keyed|].
  apply (proj2 (execute_tool_touches_one_window Sample.utcnow
                  Sample.engine_exhausted "limited" Sample.value_parameters ∅ 7%Z)
           sample_registry_well_keyed).
  discriminate.
Defined.

(** ** The agent registry and the messages *)

Section Agents.

Context {W : Type} (utcnow : W -> datetime).

(** X9.  [register_agent] puts the agent under its id and replaces without a
    word an agent already there (the tool registry raises in that case); the
    other agents, the ledger, the job objects and the tool engine are not
    touched. *)
Theorem register_agent_then_get (agent : Agent.t) (σ : State W) :
  get_agent (register_agent agent σ) (Agent.id agent) = Some agent
  /\ (forall other, other <> Agent.id agent ->
        get_agent (register_agent agent σ) other = get_agent σ other)
  /\ (forall newer,
        Agent.id newer = Agent.id agent ->
        get_agent (register_agent newer (register_agent agent σ)) (Agent.id agent)
        = Some newer)
  /\ _active_jobs (register_agent agent σ) = _active_jobs σ
  /\ objects (register_agent agent σ) = objects σ
  /\ _tool_engine (register_agent agent σ) = _tool_engine σ.
Proof.
  unfold get_agent, register_agent. simpl. split; [apply lookup_insert_eq|].
  split; [|split; [|repeat split]].
  - intros other Hne. apply lookup_insert_ne. congruence.
  - intros newer ->. apply lookup_insert_eq.
Qed.


End Agents.

Lemma get_tool_definitions_resolves_witness :
  well_keyed (_registry Sample.engine)
  /\ get_tool_definitions Sample.engine ["limited"; "task_create"; "broken"]
     = [definition Sample.limited; definition Sample.broken]
  /\ forall defn,
       In defn (get_tool_definitions Sample.engine
                  ["limited"; "task_create"; "broken"]) ->
       In (ToolDefinition.id defn) ["limited"; "task_create"; "broken"].
Proof.
  split; [exact sample_registry_well_keyed|]. split; [reflexivity|].
  exact (proj2 (proj2 (proj2
           (get_tool_definitions_resolves Sample.engine
              ["limited"; "task_create"; "broken"])))
           sample_registry_well_keyed).
Defined.

Lemma register_agent_then_get_witness :
  "other" <> Agent.id Sample.agent
  /\ get_agent (register_agent Sample.agent (Sample.state "helper" 30)) "other"
     = get_agent (Sample.state "helper" 30) "other".
Proof.
  assert (Hne : "other" <> Agent.id Sample.agent) by discriminate.
  split; [exact Hne|].
  exact (proj1 (proj2 (register_agent_then_get Sample.agent
                         (Sample.state "helper" 30))) "other" Hne).
Defined.


(** ** The life of a job *)

Section Jobs.

Context {W : Type} (utcnow : W -> datetime).



End Jobs.

Section Ledger2.

Context {W : Type} (utcnow : W -> datetime).

(** X12.  Two job objects with one [job_id]: while the first is suspended on
    the backend the second is started, which takes over the ledger entry;
    when the first returns, its [finally] pops the id, so the second job is
    RUNNING and no longer in the ledger, and [cancel_job] answers false for
    it. *)
Theorem shared_job_id_untracks_running_job (σ : State W) (a b : ref)
    (agent agent_b : Agent.t) (response : ChatResponse.t) :
  a <> b ->
  AgentJob.job_id (objects σ a) = AgentJob.job_id (objects σ b) ->
  get_agent σ (AgentJob.agent_id (objects σ a)) = Some agent ->
  get_agent σ (AgentJob.agent_id (objects σ b)) = Some agent_b ->
  ChatResponse.tool_calls response = None ->
  let σ' := (execute_job utcnow (other_job_starts utcnow b response) a σ).2 in
  AgentJob.status (objects σ' b) = JobStatus.RUNNING
  /\ AgentJob.job_id (objects σ' b) = AgentJob.job_id (objects σ b)
  /\ _active_jobs σ' !! AgentJob.job_id (objects σ b) = None
  /\ (cancel_job utcnow (AgentJob.job_id (objects σ b)) σ').1 = false.
Proof.
  intros Hne Hid Hagent Hagent_b Hcalls σ'.
  assert (Hσ' : AgentJob.status (objects σ' b) = JobStatus.RUNNING
                /\ AgentJob.job_id (objects σ' b) = AgentJob.job_id (objects σ b)
                /\ _active_jobs σ' !! AgentJob.job_id (objects σ b) = None).
  { subst σ'. rewrite (execute_job_found utcnow _ _ _ _ Hagent).
    unfold try_finally, try_except, execute_job_try, bind, call_backend,
      other_job_starts. simpl. rewrite Hcalls. simpl.
    unfold execute_job_finally, finish_job, execute_job_start,
      set_active_jobs, update_job. simpl.
    rewrite !fn_lookup_insert.
    rewrite !(fn_lookup_insert_ne _ a b) by exact Hne.
    rewrite !fn_lookup_insert.
    rewrite !(fn_lookup_insert_ne _ b a) by congruence.
    rewrite !fn_lookup_insert. simpl.
    split; [reflexivity|]. split; [reflexivity|].
    rewrite Hid. apply lookup_delete_eq. }
  destruct Hσ' as (Hstatus & Hsame & Hgone).
  repeat split; try assumption.
  apply cancel_job_untracked, Hgone.
Qed.


(** X14.  [tools_allowed] only selects the descriptions sent to the backend;
    it is not checked when a tool is called.  Whatever the list holds, a call
    the backend requests for a registered tool that needs no auth, has no
    rate limit and accepts the parameters is dispatched: the tool's [execute]
    runs on the world. *)
Theorem tool_call_ignores_tools_allowed (env : Env W) (job : ref)
    (tool_call : LLMToolCall.t) (σ : State W) (tool : Tool W)
    (allowed : list string) :
  ToolRegistry.get (_registry (_tool_engine σ)) (LLMToolCall.name tool_call)
  = Some tool ->
  ToolDefinition.requires_auth (definition tool) = false ->
  ToolDefinition.rate_limit (definition tool) = None ->
  validate_parameters tool (LLMToolCall.parameters tool_call) = true ->
  let σ0 := update_job job (with_tools_allowed allowed) σ in
  handle_tool_call utcnow env job tool_call σ0
  = (Return tt,
     meanwhile env
       (set_engine_world (_tool_engine σ)
          (execute tool (LLMToolCall.parameters tool_call)
             (tool_call_context (objects σ job) tool_call) (world σ)).2 σ0)).
Proof.
  intros Hget Hauth Hlimit Hvalid σ0. subst σ0.
  unfold handle_tool_call, execute_tool, update_job. simpl.
  rewrite fn_lookup_insert, Hget.
  unfold _check_permissions, _check_rate_limit. rewrite Hauth, Hlimit. simpl.
  rewrite Hvalid. simpl.
  change (tool_call_context (with_tools_allowed allowed (objects σ job)) tool_call)
    with (tool_call_context (objects σ job) tool_call).
  destruct (execute tool (LLMToolCall.parameters tool_call)
              (tool_call_context (objects σ job) tool_call) (world σ))
    as [[e|result] w']; reflexivity.
Qed.

End Ledger2.


Lemma shared_job_id_untracks_running_job_witness :
  let σ := Sample.state "helper" 30 in
  let σ' := (execute_job Sample.utcnow
               (other_job_starts Sample.utcnow 1 (Sample.reply "ok" None)) 0 σ).2 in
  0 <> 1
  /\ AgentJob.job_id (objects σ 0) = AgentJob.job_id (objects σ 1)
  /\ AgentJob.status (objects σ' 1) = JobStatus.RUNNING
  /\ (cancel_job Sample.utcnow "job-1" σ').1 = false.
Proof.
  assert (Hne : 0 <> 1) by discriminate.
  split; [exact Hne|]. split; [reflexivity|].
  destruct (shared_job_id_untracks_running_job Sample.utcnow
              (Sample.state "helper" 30) 0 1 Sample.agent Sample.agent
              (Sample.reply "ok" None) Hne eq_refl eq_refl eq_refl eq_refl)
    as (Hstatus & _ & _ & Hcancel).
  split; [exact Hstatus|exact Hcancel].
Defined.


Lemma tool_call_ignores_tools_allowed_witness :
  AgentJob.tools_allowed
    (objects (update_job 0 (with_tools_allowed []) Sample2.state) 0) = []
  /\ ToolRegistry.get (_registry (_tool_engine Sample2.state)) "open"
     = Some Sample2.open_tool
  /\ world (handle_tool_call Sample.utcnow (Sample.answering 1 "ok" None) 0
              Sample2.open_call
              (update_job 0 (with_tools_allowed []) Sample2.state)).2
     = Sample.seconds 1.
Proof.
  split; [reflexivity|]. split; [reflexivity|].
  rewrite (tool_call_ignores_tools_allowed Sample.utcnow
             (Sample.answering 1 "ok" None) 0 Sample2.open_call Sample2.state
             Sample2.open_tool [] eq_refl eq_refl eq_refl eq_refl).
  reflexivity.
Defined.

(** ** The built-in tools *)

Section BuiltinTools.

Context {W : Type} (utcnow : W -> datetime).





End BuiltinTools.




(** ** The backend service of a runtime *)

Section Backend.

Context {W : Type} (utcnow : W -> datetime).

(** X18.  [create_from_config] builds a service exactly when the provider,
    given or else inferred from the model name, is "anthropic" and an API key
    is given, and the service takes its model, token limit, temperature and
    timeout from the configuration.  The provider inferred is "openai"
    exactly for the names that hold "gpt" and not "claude", letter case
    aside, and every provider other than "anthropic" is refused as
    unsupported. *)
Theorem create_from_config_outcome (config : AgentConfig.t)
    (api_key provider : option string) :
  let inferred := LLMServiceFactory._infer_provider (AgentConfig.model_name config) in
  let resolved := default inferred provider in
  let lowered := PyStr.lower (AgentConfig.model_name config) in
  (inferred = "openai"
   <-> PyStr.has lowered "gpt" = true /\ PyStr.has lowered "claude" = false)
  /\ (inferred <> "openai" -> inferred = "anthropic")
  /\ (resolved = "anthropic" ->
      (api_key = None ->
       LLMServiceFactory.create_from_config config api_key provider
       = Raise "API key is required for Anthropic")
      /\ (is_Some api_key ->
          LLMServiceFactory.create_from_config config api_key provider
          = Return {| AnthropicLLMService.model := AgentConfig.model_name config;
                      AnthropicLLMService.default_max_tokens :=
                        AgentConfig.max_tokens config;
                      AnthropicLLMService.default_temperature :=
                        AgentConfig.temperature config;
                      AnthropicLLMService.timeout :=
                        AgentConfig.timeout_seconds config |}))
  /\ (resolved <> "anthropic" ->
      LLMServiceFactory.create_from_config config api_key provider
      = Raise ("Unsupported provider: " +:+ resolved)).
Proof.
  intros inferred resolved lowered.
  assert (Hcreate : LLMServiceFactory.create_from_config config api_key provider
            = if String.eqb resolved "anthropic" then
                match api_key with
                | None => Raise "API key is required for Anthropic"
                | Some _ =>
                    Return {| AnthropicLLMService.model := AgentConfig.model_name config;
                              AnthropicLLMService.default_max_tokens :=
                                AgentConfig.max_tokens config;
                              AnthropicLLMService.default_temperature :=
                                AgentConfig.temperature config;
                              AnthropicLLMService.timeout :=
                                AgentConfig.timeout_seconds config |}
                end
              else Raise ("Unsupported provider: " +:+ resolved)).
  { subst resolved inferred. unfold LLMServiceFactory.create_from_config.
    destruct provider; reflexivity. }
  split; [|split; [|split]].
  - subst inferred. unfold LLMServiceFactory._infer_provider. fold lowered.
    destruct (PyStr.has lowered "claude"), (PyStr.has lowered "gpt");
      split; try discriminate; try (intros [? ?]; discriminate); auto.
  - subst inferred. unfold LLMServiceFactory._infer_provider. fold lowered.
    destruct (PyStr.has lowered "claude"), (PyStr.has lowered "gpt");
      intros H; try reflexivity. congruence.
  - intros Hresolved. rewrite Hcreate, Hresolved. simpl. split.
    + intros ->. reflexivity.
    + intros [key ->]. reflexivity.
  - intros Hresolved. rewrite Hcreate.
    destruct (String.eqb_spec resolved "anthropic"); [congruence|reflexivity].
Qed.

(** X19.  [AgentRuntime.__init__] raises "Unsupported provider: openai" for a
    model name that holds "gpt" and not "claude", and builds a runtime for
    every other name.  The backend service it builds has the default timeout
    of 30 seconds and token limit of 2000 whatever the model, and the new
    runtime has no agent and no job: every [get_agent] is empty, every
    [cancel_job] answers false, and every job fails with the agent not
    found. *)
Theorem runtime_init_outcome (llm_api_key llm_model : string)
    (store : ref -> AgentJob.t) (w : W) :
  let lowered := PyStr.lower llm_model in
  (PyStr.has lowered "gpt" = true -> PyStr.has lowered "claude" = false ->
   @AgentRuntime_init W llm_api_key llm_model store w
   = Raise "Unsupported provider: openai")
  /\ (PyStr.has lowered "gpt" = false \/ PyStr.has lowered "claude" = true ->
      exists service σ,
        AgentRuntime_init llm_api_key llm_model store w = Return (service, σ)
        /\ AnthropicLLMService.model service = llm_model
        /\ AnthropicLLMService.timeout service = 30%Z
        /\ AnthropicLLMService.default_max_tokens service = 2000%Z
        /\ (forall agent_id, get_agent σ agent_id = None)
        /\ (forall job_id, cancel_job utcnow job_id σ = (false, σ))
        /\ (forall env job,
              exists result,
                execute_job utcnow env job σ = (Return result, σ)
                /\ AgentResult.status result = JobStatus.FAILED)).
Proof.
  intros lowered. unfold AgentRuntime_init, LLMServiceFactory.create_from_config,
    LLMServiceFactory._infer_provider. simpl. fold lowered. split.
  - intros -> ->. reflexivity.
  - intros Hmodel.
    assert (Hprovider : (if PyStr.has lowered "claude" then "anthropic"
                         else if PyStr.has lowered "gpt" then "openai"
                              else "anthropic") = "anthropic").
    { destruct (PyStr.has lowered "claude"), (PyStr.has lowered "gpt");
        try reflexivity. destruct Hmodel; discriminate. }
    rewrite Hprovider. simpl. eexists _, _. split; [reflexivity|].
    split; [reflexivity|]. split; [reflexivity|]. split; [reflexivity|].
    split; [|split].
    + intros agent_id. apply lookup_empty.
    + intros job_id. unfold cancel_job. simpl. rewrite lookup_empty. reflexivity.
    + intros env job. unfold execute_job, get_agent. simpl.
      rewrite lookup_empty. eexists. split; reflexivity.
Qed.

End Backend.

Lemma create_from_config_outcome_witness :
  default (LLMServiceFactory._infer_provider
             (AgentConfig.model_name (AgentConfig_of_model "GPT-4o")))
    (None : option string) <> "anthropic"
  /\ LLMServiceFactory.create_from_config (AgentConfig_of_model "GPT-4o")
       (Some "key") None
     = Raise "Unsupported provider: openai".
Proof.
  assert (Hne : default (LLMServiceFactory._infer_provider
                           (AgentConfig.model_name (AgentConfig_of_model "GPT-4o")))
                  (None : option string) <> "anthropic") by discriminate.
  split; [exact Hne|].
  exact (proj2 (proj2 (proj2
           (create_from_config_outcome (AgentConfig_of_model "GPT-4o")
              (Some "key") None))) Hne).
Defined.

Lemma runtime_init_outcome_witness :
  PyStr.has (PyStr.lower "claude-3-5-sonnet-20241022") "claude" = true
  /\ exists service σ,
       @AgentRuntime_init Z "test-key" "claude-3-5-sonnet-20241022"
         (fun _ => Sample.job "helper" 30) 0%Z = Return (service, σ)
       /\ AnthropicLLMService.timeout service = 30%Z.
Proof.
  split; [reflexivity|].
  destruct (proj2 (runtime_init_outcome Sample.utcnow "test-key"
                     "claude-3-5-sonnet-20241022"
                     (fun _ => Sample.job "helper" 30) 0%Z)
              (or_intror eq_refl))
    as (service & σ & Hinit & _ & Htimeout & _).
  exists service, σ. split; assumption.
Defined.

(** ** More on the follow-up extraction *)

Lemma rstrip_cons (c : ascii) (s : string) :
  Str.rstrip (String c s)
  = match Str.rstrip s with
    | EmptyString => if Str.isspace c then EmptyString else String c EmptyString
    | r => String c r
    end.
Proof. reflexivity. Qed.

Lemma rstrip_idempotent (s : string) : Str.rstrip (Str.rstrip s) = Str.rstrip s.
Proof.
  induction s as [|c s IH]; [reflexivity|].
  rewrite rstrip_cons. destruct (Str.rstrip s) as [|d r] eqn:Hr.
  - destruct (Str.isspace c) eqn:Hc; [reflexivity|].
    rewrite rstrip_cons. simpl. rewrite Hc. reflexivity.
  - rewrite rstrip_cons, IH. reflexivity.
Qed.

Lemma lstrip_head (s : string) :
  Str.lstrip s = EmptyString
  \/ exists c r, Str.lstrip s = String c r /\ Str.isspace c = false.
Proof.
  induction s as [|c s IH]; [left; reflexivity|].
  simpl. destruct (Str.isspace c) eqn:Hc; [exact IH|]. right. eauto.
Qed.

Lemma rstrip_head (c : ascii) (s : string) :
  Str.isspace c = false -> exists r, Str.rstrip (String c s) = String c r.
Proof.
  intros Hc. rewrite rstrip_cons. destruct (Str.rstrip s); rewrite ?Hc; eauto.
Qed.

(** Trimming twice is trimming once. *)
Lemma strip_idempotent (s : string) : Str.strip (Str.strip s) = Str.strip s.
Proof.
  unfold Str.strip. destruct (lstrip_head s) as [->|(c & r & -> & Hc)];
    [reflexivity|].
  destruct (rstrip_head c r Hc) as [r' Hr']. rewrite Hr'.
  simpl Str.lstrip. rewrite Hc, <- Hr'. apply rstrip_idempotent.
Qed.

Lemma split1_none (sep : ascii) (s : string) :
  Str.mem sep s = false -> Str.split1 sep s = [s].
Proof.
  induction s as [|c s IH]; simpl; intros Hmem; [reflexivity|].
  apply orb_false_iff in Hmem as [Hc Hs]. rewrite Hc, (IH Hs). reflexivity.
Qed.

Lemma split_nonempty (sep : ascii) (s : string) :
  exists piece rest, Str.split sep s = piece :: rest.
Proof.
  induction s as [|c s (piece & rest & IH)]; simpl; [eauto|].
  destruct (Ascii.eqb c sep); [eauto|]. rewrite IH. eauto.
Qed.

(** Splitting a text that was joined with the separator. *)
Lemma split_joined (sep : ascii) (a b : string) :
  Str.split sep (a +:+ String sep b) = Str.split sep a ++ Str.split sep b.
Proof.
  induction a as [|c a IH].
  - simpl. rewrite ascii_eqb_refl'. reflexivity.
  - change (String c a +:+ String sep b) with (String c (a +:+ String sep b)).
    simpl. destruct (Ascii.eqb c sep).
    + rewrite IH. reflexivity.
    + rewrite IH. destruct (split_nonempty sep a) as (piece & rest & ->).
      reflexivity.
Qed.

Lemma prefix_cons (a c : ascii) (p t : string) :
  String.prefix (String a p) (String c t)
  = if ascii_dec a c then String.prefix p t else false.
Proof. reflexivity. Qed.

Lemma checkbox_line_head (line : string) :
  checkbox_line line = true ->
  String.eqb (Str.strip line) "" = false
  /\ Str.startswith (Str.strip line) "[" = false.
Proof.
  unfold checkbox_line, Str.startswith.
  destruct (Str.strip line) as [|c t]; [discriminate|].
  intros Hshape. split; [reflexivity|].
  rewrite prefix_cons. destruct (ascii_dec "[" c) as [<-|]; [|reflexivity].
  rewrite !prefix_cons in Hshape.
  destruct (ascii_dec "-" "[") as [Hdash|]; [discriminate Hdash|].
  destruct (ascii_dec "*" "[") as [Hstar|]; [discriminate Hstar|].
  discriminate Hshape.
Qed.

Lemma line_action_items_inv (line : string) (item : ActionItem.t) :
  In item (line_action_items line) ->
  line_action_items line = [item]
  /\ item = ActionItem.make (ActionItem.description item)
  /\ String.eqb (ActionItem.description item) "" = false
  /\ Str.startswith (ActionItem.description item) "[" = false
  /\ Str.strip (ActionItem.description item) = ActionItem.description item.
Proof.
  unfold line_action_items.
  destruct (Str.startswith (Str.strip line) "- [" || Str.startswith (Str.strip line) "* [");
    [|intros []].
  set (desc := Str.strip (Str.last_piece (Str.split1 "]" (Str.strip line)))).
  destruct (String.eqb desc "") eqn:Hempty; [intros []|].
  destruct (Str.startswith desc "[") eqn:Hbracket; [intros []|].
  simpl. intros [<-|[]]. simpl. repeat split; try assumption.
  subst desc. apply strip_idempotent.
Qed.

(** X20.  Every item [_extract_action_items] returns has a description that
    is not empty, is trimmed and does not start with "[", and has the default
    priority "medium", no assignee and no due date; and a text gives at most
    one item per line. *)
Theorem extract_action_items_wellformed (content : string) :
  (forall item,
     In item (_extract_action_items content) ->
     ActionItem.description item <> ""
     /\ Str.strip (ActionItem.description item) = ActionItem.description item
     /\ Str.startswith (ActionItem.description item) "[" = false
     /\ ActionItem.priority item = "medium"
     /\ ActionItem.assignee item = None
     /\ ActionItem.due_date item = None)
  /\ length (_extract_action_items content)
     <= length (Str.split Str.newline content).
Proof.
  unfold _extract_action_items.
  rewrite (fold_append_flat_map line_action_items). simpl. split.
  - intros item Hitem. apply in_flat_map in Hitem as (line & _ & Hline).
    destruct (line_action_items_inv line item Hline)
      as (_ & Hmake & Hempty & Hbracket & Htrimmed).
    split; [intros Hdesc; rewrite Hdesc in Hempty; discriminate|].
    split; [exact Htrimmed|]. split; [exact Hbracket|].
    rewrite Hmake. repeat split.
  - induction (Str.split Str.newline content) as [|line lines IH];
      simpl; [lia|].
    rewrite length_app.
    assert (length (line_action_items line) <= 1); [|lia].
    destruct (line_action_items line) as [|item rest] eqn:Hline; simpl; [lia|].
    destruct (line_action_items_inv line item) as [Hone _].
    { rewrite Hline. left. reflexivity. }
    rewrite Hline in Hone. injection Hone as ->. simpl. lia.
Qed.

(** X21.  A line that after trimming begins with "- [" or "* [" and holds
    no "]" gives one item whose description is the whole trimmed line, the
    marker included. *)
Theorem extract_action_items_unclosed_checkbox (line : string) :
  checkbox_line line = true ->
  Str.mem "]" (Str.strip line) = false ->
  line_action_items line = [ActionItem.make (Str.strip line)].
Proof.
  intros Hshape Hopen. destruct (checkbox_line_head line Hshape) as [Hempty Hbracket].
  unfold line_action_items. unfold checkbox_line in Hshape. rewrite Hshape.
  rewrite (split1_none _ _ Hopen). unfold Str.last_piece. simpl.
  rewrite strip_idempotent, Hempty, Hbracket. reflexivity.
Qed.

(** X22.  The extraction goes line by line: the items of two texts joined by
    a newline are the items of the first followed by the items of the
    second. *)
Theorem extract_action_items_joined (a b : string) :
  _extract_action_items (a +:+ String Str.newline b)
  = _extract_action_items a ++ _extract_action_items b.
Proof.
  unfold _extract_action_items.
  rewrite !(fold_append_flat_map line_action_items). simpl.
  rewrite split_joined. apply flat_map_app.
Qed.

Lemma extract_action_items_unclosed_checkbox_witness :
  checkbox_line " - [ todo" = true
  /\ Str.mem "]" (Str.strip " - [ todo") = false
  /\ line_action_items " - [ todo" = [ActionItem.make "- [ todo"].
Proof.
  split; [reflexivity|]. split; [reflexivity|].
  exact (extract_action_items_unclosed_checkbox " - [ todo" eq_refl eq_refl).
Defined.

Lemma extract_action_items_wellformed_witness :
  In (ActionItem.make "call Bob") (_extract_action_items sample_response)
  /\ Str.strip "call Bob" = "call Bob".
Proof.
  assert (Hin : In (ActionItem.make "call Bob")
                  (_extract_action_items sample_response)).
  { vm_compute. left. reflexivity. }
  split; [exact Hin|].
  exact (proj1 (proj2 (proj1 (extract_action_items_wellformed sample_response)
                         (ActionItem.make "call Bob") Hin))).
Defined.

(** ** Listing the tools *)

Section Listing.

Context {W : Type} (utcnow : W -> datetime).

(** X23.  [list_tools] lists exactly the definitions of the registered tools
    that are of the category asked, when one is asked, and active, when only
    the active ones are asked.  The gate does not look at [is_active]: an
    inactive tool, which [list_tools] hides by default, is still run when it
    is called. *)
Theorem list_tools_lists_matching (self : ToolRegistry.t W)
    (category : option ToolCategory.t) (active_only : bool) :
  (forall defn,
     In defn (list_tools self category active_only)
     <-> exists tool_id tool,
           ToolRegistry.get self tool_id = Some tool
           /\ defn = definition tool
           /\ (forall c, category = Some c ->
                 ToolDefinition.category (definition tool) = c)
           /\ (active_only = true ->
               ToolDefinition.is_active (definition tool) = true))
  /\ (forall tool_id tool counters parameters context w result w',
        ToolRegistry.get self tool_id = Some tool ->
        ToolDefinition.is_active (definition tool) = false ->
        ToolDefinition.requires_auth (definition tool) = false ->
        ToolDefinition.rate_limit (definition tool) = None ->
        validate_parameters tool parameters = true ->
        execute tool parameters context w = (Return result, w') ->
        ~ In (definition tool) (list_tools self None true)
        /\ execute_tool utcnow
             {| _registry := self; _rate_limit_counters := counters |}
             tool_id parameters context w
           = (Return result,
              {| _registry := self; _rate_limit_counters := counters |}, w')).
Proof.
  assert (Hlisted : forall defn,
            In defn (list_tools self category active_only)
            <-> exists tool_id tool,
                  ToolRegistry.get self tool_id = Some tool
                  /\ defn = definition tool
                  /\ (forall c, category = Some c ->
                        ToolDefinition.category (definition tool) = c)
                  /\ (active_only = true ->
                      ToolDefinition.is_active (definition tool) = true)).
  { intros defn. unfold list_tools, ToolRegistry.get.
    assert (Hall : forall tool,
              In tool (List.map snd (map_to_list (ToolRegistry._tools self)))
              <-> exists tool_id, ToolRegistry._tools self !! tool_id = Some tool).
    { intros tool. rewrite in_map_iff. split.
      - intros ([tool_id tool'] & <- & Hin). exists tool_id.
        apply elem_of_map_to_list, list_elem_of_In, Hin.
      - intros [tool_id Hget]. exists (tool_id, tool). split; [reflexivity|].
        apply list_elem_of_In, elem_of_map_to_list, Hget. }
    rewrite in_map_iff. split.
    - intros (tool & <- & Hin).
      assert (Hin' : (exists tool_id, ToolRegistry._tools self !! tool_id = Some tool)
                     /\ (forall c, category = Some c ->
                           ToolDefinition.category (definition tool) = c)
                     /\ (active_only = true ->
                         ToolDefinition.is_active (definition tool) = true)).
      { destruct active_only, category as [c|];
          repeat (apply filter_In in Hin as [Hin ?]);
          apply Hall in Hin; (split; [exact Hin|]); split;
          try (intros c' [= <-]; eapply bool_decide_eq_true_1; eassumption);
          try discriminate; try (intros _; assumption). }
      destruct Hin' as ([tool_id Hget] & Hcat & Hact). eauto 6.
    - intros (tool_id & tool & Hget & -> & Hcat & Hact).
      exists tool. split; [reflexivity|].
      assert (Hin : In tool (List.map snd (map_to_list (ToolRegistry._tools self))))
        by (apply Hall; eauto).
      destruct active_only, category as [c|];
        repeat (apply filter_In; split); try exact Hin;
        try (apply Hact; reflexivity);
        try (apply bool_decide_eq_true_2, Hcat; reflexivity). }
  split; [exact Hlisted|].
  intros tool_id tool counters parameters context w result w'
    Hget Hinactive Hauth Hlimit Hvalid Hexec. split.
  - intros Hin.
    assert (Hdefault : forall defn,
              In defn (list_tools self None true) ->
              ToolDefinition.is_active defn = true).
    { intros defn. unfold list_tools. rewrite in_map_iff.
      intros (tool' & <- & Hin'). apply filter_In in Hin' as [_ Hactive].
      exact Hactive. }
    rewrite (Hdefault _ Hin) in Hinactive. discriminate.
  - unfold execute_tool. simpl. rewrite Hget.
    unfold _check_permissions, _check_rate_limit. rewrite Hauth, Hlimit. simpl.
    rewrite Hvalid. simpl. rewrite Hexec. reflexivity.
Qed.

End Listing.

(** ** The request sent to the backend *)

Lemma last_cons_default {A} (l : list A) (m d : A) :
  List.last (m :: l) d = List.last l m.
Proof.
  revert m d. induction l as [|a l IH]; intros m d; [reflexivity|].
  change (List.last (a :: l) d = List.last (a :: l) m).
  rewrite !IH. reflexivity.
Qed.

Lemma convert_messages_spec (messages : list ChatMessage.t)
    (system_message : option string) (converted : list (string * string)) :
  convert_messages messages system_message converted
  = (match List.filter is_system messages with
     | [] => system_message
     | first :: rest => Some (ChatMessage.content (List.last rest first))
     end,
     converted
     ++ List.map (fun msg => (MessageRole_value (ChatMessage.role msg),
                              ChatMessage.content msg))
          (List.filter (fun msg => negb (is_system msg)) messages)).
Proof.
  revert system_message converted.
  induction messages as [|msg rest IH]; intros system_message converted.
  - simpl. rewrite app_nil_r. reflexivity.
  - cbn [convert_messages List.filter].
    destruct (ChatMessage.role msg) eqn:Hrole.
    + assert (Hsys : is_system msg = true)
        by (unfold is_system; rewrite Hrole; reflexivity).
      rewrite Hsys, IH. cbn [negb]. f_equal.
      destruct (List.filter is_system rest) as [|m l]; [reflexivity|].
      rewrite last_cons_default. reflexivity.
    + assert (Hsys : is_system msg = false)
        by (unfold is_system; rewrite Hrole; reflexivity).
      rewrite Hsys, IH. cbn [negb List.map]. rewrite Hrole, <- app_assoc.
      reflexivity.
    + assert (Hsys : is_system msg = false)
        by (unfold is_system; rewrite Hrole; reflexivity).
      rewrite Hsys, IH. cbn [negb List.map]. rewrite Hrole, <- app_assoc.
      reflexivity.
    + assert (Hsys : is_system msg = false)
        by (unfold is_system; rewrite Hrole; reflexivity).
      rewrite Hsys, IH. cbn [negb List.map]. rewrite Hrole, <- app_assoc.
      reflexivity.
Qed.


Lemma llm_tools_rebuilt (tools : list LLMToolDefinition.t) :
  List.map (fun tool =>
              {| LLMToolDefinition.name := LLMToolDefinition.name tool;
                 LLMToolDefinition.description := LLMToolDefinition.description tool;
                 LLMToolDefinition.input_schema := LLMToolDefinition.input_schema tool |})
           tools = tools.
Proof.
  induction tools as [|[name description schema] rest IH]; simpl;
    [reflexivity|]. rewrite IH. reflexivity.
Qed.

Section JobRequest.

Context {W : Type}.

(** X25.  The request a job makes of the backend: the agent's system prompt
    is the [system] parameter, the conversation holds only USER messages and
    ends with the job's instruction, the temperature and the token limit are
    the agent's, the tools are the descriptions [execute_job] selected, and
    the model is the one the runtime was built with: the [model_name] of the
    agent's own configuration is not used. *)
Theorem job_request_shape (service : AnthropicLLMService.t) (agent : Agent.t)
    (job : ref) (σ : State W) :
  let request := job_request service agent job σ in
  AnthropicRequest.model request = AnthropicLLMService.model service
  /\ AnthropicRequest.max_tokens request
     = AgentConfig.max_tokens (Agent.config agent)
  /\ AnthropicRequest.temperature request
     = Some (AgentConfig.temperature (Agent.config agent))
  /\ AnthropicRequest.system request
     = (if String.eqb (Agent.system_prompt agent) "" then None
        else Some (Agent.system_prompt agent))
  /\ (forall entry, In entry (AnthropicRequest.messages request) ->
        entry.1 = "user")
  /\ List.last (AnthropicRequest.messages request) ("", "")
     = ("user", AgentJob.instruction (objects σ job))
  /\ (ExecutionContext.recent_messages (AgentJob.context (objects σ job)) = [] ->
      AnthropicRequest.messages request
      = [("user", AgentJob.instruction (objects σ job))])
  /\ AnthropicRequest.tools request = llm_tools_for σ job.
Proof.
  intros request. subst request. unfold job_request, chat_request.
  rewrite convert_messages_spec. simpl.
  split; [reflexivity|]. split; [reflexivity|]. split; [reflexivity|].
  assert (Htools : match llm_tools_for σ job with
                   | Some (tool :: rest) =>
                       Some (List.map
                               (fun tool =>
                                  {| LLMToolDefinition.name := LLMToolDefinition.name tool;
                                     LLMToolDefinition.description :=
                                       LLMToolDefinition.description tool;
                                     LLMToolDefinition.input_schema :=
                                       LLMToolDefinition.input_schema tool |})
                               (tool :: rest))
                   | _ => None
                   end = llm_tools_for σ job).
  { unfold llm_tools_for.
    destruct (List.map _ (get_tool_definitions _ _)) as [|tool rest];
      [reflexivity|]. rewrite llm_tools_rebuilt. reflexivity. }
  unfold _prepare_messages.
  destruct (ExecutionContext.recent_messages (AgentJob.context (objects σ job)))
    as [|msg rest]; simpl.
  - repeat split; try assumption.
    intros entry [<-|[]]. reflexivity.
  - repeat split; try assumption; try discriminate.
    intros entry [<-|[<-|[]]]; reflexivity.
Qed.

End JobRequest.

Lemma list_tools_lists_matching_witness :
  ToolRegistry.get Sample3.retired_registry "retired" = Some Sample3.retired_tool
  /\ ToolDefinition.is_active (definition Sample3.retired_tool) = false
  /\ ~ In (definition Sample3.retired_tool)
         (list_tools Sample3.retired_registry None true)
  /\ exists result,
       execute_tool Sample.utcnow
         {| _registry := Sample3.retired_registry; _rate_limit_counters := ∅ |}
         "retired" Sample.value_parameters ∅ 0%Z
       = (Return result,
          {| _registry := Sample3.retired_registry; _rate_limit_counters := ∅ |},
          Sample.seconds 1)
       /\ ToolExecutionResult.status result = ToolStatus.COMPLETED.
Proof.
  split; [reflexivity|]. split; [reflexivity|].
  destruct (proj2 (list_tools_lists_matching Sample.utcnow
                     Sample3.retired_registry None true)
              "retired" Sample3.retired_tool ∅ Sample.value_parameters ∅ 0%Z
              _ _ eq_refl eq_refl eq_refl eq_refl eq_refl eq_refl)
    as [Hhidden Hrun].
  split; [exact Hhidden|]. eexists. split; [exact Hrun|]. reflexivity.
Defined.


Lemma job_request_shape_witness :
  ExecutionContext.recent_messages
    (AgentJob.context (objects (Sample.state "helper" 30) 0)) = []
  /\ AnthropicRequest.messages
       (job_request Sample3.service Sample.agent 0 (Sample.state "helper" 30))
     = [("user", "Summarize our discussion")].
Proof.
  split; [reflexivity|].
  exact (proj1 (proj2 (proj2 (proj2 (proj2 (proj2 (proj2
           (job_request_shape Sample3.service Sample.agent 0
              (Sample.state "helper" 30)))))))) eq_refl).
Defined.
